(** * The Performance Learning Engine of the hashtag optimizer

    A shallow embedding of [enhanced_hashtag_recommender.py]
    ([PerformanceDatabase], [EnhancedHashtagAnalyzer], [tracking_tab]) and of
    the aggregate statement shared with [import_historical_data.py].

    Conventions of the embedding.
    - A Python [str] is the list of its code points ([str := list Z]); [len]
      is [length], [c in s] for a one-character [c] is list membership.
    - Python [int] is [Z]; an [int] bound to a SQL parameter has to fit a
      signed 64-bit integer.
    - A Python [float] and a SQLite [REAL] are IEEE binary64 values; a stored
      one is kept as the rational it denotes ([Q]), so comparisons of stored
      values are exact.  The engagement rate of a report and the weighted
      sum of the composite score are computed in binary64 itself.  SQLite's
      [AVG] over a [REAL] column, whose rounding depends on the library's
      summation, is taken from the interface [PyStr].  The other quotients
      (the running mean of the aggregate statement, the similarity, the mean
      relevance, the mean of integer lengths) are taken exactly.  [int(x)]
      on a float is truncation toward zero.
    - A table is the list of its rows in rowid order; SQL statements are
      written out as the list operations they perform.
    - An uncaught Python exception is the [Raise] result; a database
      connection that raises before [commit] leaves the store as it was.
    - [str.lower], [str.isupper] and the regex class [\w] are written out on
      ASCII; beyond ASCII they are Unicode tables of the Python runtime,
      taken as the interface [PyStr]. *)

From Stdlib Require Import ZArith QArith Qround Qabs List Bool Lia String Ascii.
From Stdlib Require Import Floats Uint63.
From Stdlib Require Import Sorting.Sorted.
Import ListNotations.

Local Open Scope Z_scope.

(** ** Strings *)

Definition str := list Z.

Fixpoint str_eqb (a b : str) : bool :=
  match a, b with
  | [], [] => true
  | x :: a', y :: b' => (x =? y) && str_eqb a' b'
  | _, _ => false
  end.

(** An ASCII literal as a Python string. *)
Definition lit (s : string) : str :=
  map (fun a => Z.of_N (N_of_ascii a)) (list_ascii_of_string s).

Fixpoint starts_with (p s : str) : bool :=
  match p, s with
  | [], _ => true
  | x :: p', y :: s' => (x =? y) && starts_with p' s'
  | _ :: _, [] => false
  end.

(** [sub in s] for Python strings. *)
Fixpoint contains (sub s : str) : bool :=
  starts_with sub s ||
  match s with
  | [] => false
  | _ :: s' => contains sub s'
  end.

(** [c in s] for a one-character string [c]. *)
Definition has_char (c : Z) (s : str) : bool := existsb (Z.eqb c) s.

Definition mem_str (x : str) (l : list str) : bool := existsb (str_eqb x) l.

(** [set(l)], kept as a duplicate-free list. *)
Fixpoint to_set (l : list str) : list str :=
  match l with
  | [] => []
  | x :: l' => if mem_str x l' then to_set l' else x :: to_set l'
  end.

Definition set_inter (a b : list str) : list str :=
  filter (fun x => mem_str x b) a.

Definition set_union (a b : list str) : list str :=
  a ++ filter (fun x => negb (mem_str x a)) b.

Definition len {A} (l : list A) : Z := Z.of_nat (List.length l).

(** ** Double-precision values *)

(** [float(z)] for a Python int below 2^63 in absolute value. *)
Definition float_of_int (z : Z) : float :=
  if z <? 0 then PrimFloat.opp (PrimFloat.of_uint63 (Uint63.of_Z (- z)))
  else PrimFloat.of_uint63 (Uint63.of_Z z).

(** [int(x)] for a finite binary64 [x]: truncation toward zero. *)
Definition int_of_float (x : float) : Z :=
  match Prim2SF x with
  | S754_finite s m e =>
      let mag := if 0 <=? e then Zpos m * 2 ^ e else Zpos m / 2 ^ (- e) in
      if s then - mag else mag
  | _ => 0
  end.

(** The rational a finite double denotes. *)
Definition Q_of_float (x : float) : Q :=
  match Prim2SF x with
  | S754_finite s m e =>
      let n := if s then Zneg m else Zpos m in
      if 0 <=? e then inject_Z (n * 2 ^ e) else n # Z.to_pos (2 ^ (- e))
  | _ => 0%Q
  end.

Definition sf_of_Z (z : Z) : spec_float :=
  match z with
  | Z0 => S754_zero false
  | Zpos p => S754_finite false p 0
  | Zneg p => S754_finite true p 0
  end.

(** [a / b] for two Python ints, [b] not 0: the double nearest to the
    quotient (ties to even), whatever the size of [a] and [b]. *)
Definition int_true_divide (a b : Z) : float :=
  SF2Prim (SF64div (sf_of_Z a) (sf_of_Z b)).

(** The double nearest to a rational; the double itself when the rational is
    the value of one. *)
Definition float_of_Q (q : Q) : float :=
  int_true_divide (Qnum q) (Zpos (Qden q)).

(** SQL [AVG] over [REAL] values with plain summation: the values are added
    one by one, in row order, to a double that starts at 0.0, and the sum is
    divided by the count.  (This is what the older SQLite releases do; the
    newer ones compensate the sum, and the last digit can differ.)  [None]
    is SQL [NULL]. *)
Definition plain_avg (l : list Q) : option Q :=
  match l with
  | [] => None
  | _ =>
      Some (Q_of_float
              (fold_left (fun s x => (s + float_of_Q x)%float) l 0%float
               / float_of_int (len l))%float)
  end.

(** ** The runtime: Unicode tables, float formatting, SQLite's [AVG]

    On ASCII the string methods are written out; what they do beyond ASCII,
    the formatting of a float, and the rounding of SQLite's [AVG] over a
    [REAL] column are the runtime's. *)

Class PyStr := {
  unicode_lower : str -> str;    (* s.lower(), s not pure ASCII *)
  unicode_isupper : Z -> bool;   (* c.isupper(), c a non-ASCII character *)
  unicode_word : Z -> bool;      (* the non-ASCII members of the regex \w *)
  format_1f : Q -> str;          (* f"{x:.1f}" *)
  sqlite_avg : list Q -> option Q
    (* AVG(x) over the REAL values x, in row order; None is NULL *)
}.

Definition is_ascii (c : Z) : bool := (0 <=? c) && (c <? 128).
Definition ascii_upper (c : Z) : bool := (65 <=? c) && (c <=? 90).
Definition ascii_lower (c : Z) : bool := (97 <=? c) && (c <=? 122).
Definition ascii_digit (c : Z) : bool := (48 <=? c) && (c <=? 57).
Definition ascii_to_lower (c : Z) : Z := if ascii_upper c then c + 32 else c.

Section Runtime.
Context {U : PyStr}.

(** [s.lower()]. *)
Definition str_lower (s : str) : str :=
  if forallb is_ascii s then map ascii_to_lower s else unicode_lower s.

(** [c.isupper()] for a one-character string. *)
Definition chr_isupper (c : Z) : bool :=
  if is_ascii c then ascii_upper c else unicode_isupper c.

(** The regex class [\w]. *)
Definition re_word (c : Z) : bool :=
  if is_ascii c
  then ascii_upper c || ascii_lower c || ascii_digit c || (c =? 95)
  else unicode_word c.

End Runtime.

(** The decimal digits of a natural number. *)
Fixpoint digits (fuel : nat) (n : Z) (acc : str) : str :=
  match fuel with
  | O => acc
  | S fuel' =>
      let acc' := (48 + n mod 10) :: acc in
      if n <? 10 then acc' else digits fuel' (n / 10) acc'
  end.

Definition decimal (n : Z) : str := digits (S (Z.to_nat (Z.log2 n))) n [].

(** A rational to the nearest integer, halves to the even neighbour. *)
Definition round_half_even (q : Q) : Z :=
  let f := Qfloor q in
  match Qcompare (q - inject_Z f) (1 # 2) with
  | Lt => f
  | Gt => f + 1
  | Eq => if Z.even f then f else f + 1
  end.

Definition decimal_1f (q : Q) : str :=
  let t := round_half_even (Qabs q * 10) in
  (if (Qnum q <? 0) && negb (t =? 0) then [45] else [])
  ++ decimal (t / 10) ++ [46] ++ decimal (t mod 10).

(** A runtime for the sample inputs, which are ASCII texts: the Unicode
    tables are never consulted there; floats are printed from their exact
    value; [AVG] adds plainly. *)
Definition ascii_pystr : PyStr := {|
  unicode_lower := fun s => s;
  unicode_isupper := fun _ => false;
  unicode_word := fun _ => false;
  format_1f := decimal_1f;
  sqlite_avg := plain_avg
|}.

(** ** Results of calls that may raise *)

Inductive exn := IndexError | TypeError | OverflowError.

Inductive result (A : Type) :=
| Return (a : A)
| Raise (e : exn).
Arguments Return {A} a.
Arguments Raise {A} e.

Definition bind {A B} (r : result A) (k : A -> result B) : result B :=
  match r with
  | Return a => k a
  | Raise e => Raise e
  end.

Inductive platform := Twitter | Instagram.

Definition platform_eqb (a b : platform) : bool :=
  match a, b with
  | Twitter, Twitter | Instagram, Instagram => true
  | _, _ => false
  end.

(** [int(x)] for a float [x]. *)
Definition int_of (x : Q) : Z := Z.quot (Qnum x) (Zpos (Qden x)).

Definition Qgtb (a b : Q) : bool := negb (Qle_bool a b).

(** The exact mean of a list, [None] (SQL [NULL]) for no rows. *)
Definition Qsum (l : list Q) : Q := fold_right Qplus 0%Q l.

Definition Zsum (l : list Z) : Z := fold_right Z.add 0 l.

Definition AVG (l : list Q) : option Q :=
  match l with
  | [] => None
  | _ => Some (Qsum l / inject_Z (len l))%Q
  end.

(** What [sqlite3] accepts as an integer parameter: a Python int outside the
    signed 64-bit range raises OverflowError when it is bound. *)
Definition int64 (z : Z) : bool := (- 2 ^ 63 <=? z) && (z <? 2 ^ 63).

(** The emoji characters iterated by
    [any(emoji in text for emoji in '...')]: the code points of the literal,
    the heart being U+2764 followed by the variation selector U+FE0F. *)
Definition emoji_chars : list Z :=
  [0x1F60A; 0x1F525; 0x1F4AF; 0x2764; 0xFE0F; 0x1F44D; 0x1F389; 0x2728;
   0x1F4AA; 0x1F64C].

Definition has_emoji (text : str) : bool :=
  existsb (fun e => has_char e text) emoji_chars.

Definition question_mark : Z := 63.

(** ** The store: [PerformanceDatabase] *)

Module PerformanceDatabase.

(** The four tables of [init_database].  [REAL] columns are rationals and
    timestamps are integers. *)
Record post_row := {
  p_id : Z;
  p_platform : platform;
  p_content : str;
  p_created_at : Z;
  p_content_length : Z;
  p_has_question : Z;
  p_has_emoji : Z;
  p_predicted_score : Z
}.

Record hashtag_row := {
  h_id : Z;
  h_post_id : Z;
  h_hashtag : str;
  h_predicted_relevance : Z
}.

Record performance_row := {
  f_id : Z;
  f_post_id : Z;
  f_likes : Z;
  f_comments : Z;
  f_shares : Z;
  f_impressions : Z;
  f_engagement_rate : Q;
  f_updated_at : Z
}.

Record hashtag_stats_row := {
  s_hashtag : str;
  s_platform : platform;
  s_total_uses : Z;
  s_avg_engagement : Q;
  s_success_rate : Q;
  s_last_used : Z
}.

(** The database file: the tables and the AUTOINCREMENT counters (the
    largest rowid ever handed out in each table). *)
Record db := {
  posts : list post_row;
  hashtags : list hashtag_row;
  performance : list performance_row;
  hashtag_stats : list hashtag_stats_row;
  seq_posts : Z;
  seq_hashtags : Z;
  seq_performance : Z
}.

(** [init_database] on a fresh file. *)
Definition init_database : db := {|
  posts := []; hashtags := []; performance := []; hashtag_stats := [];
  seq_posts := 0; seq_hashtags := 0; seq_performance := 0
|}.

(** A proposed hashtag: the dict with keys tag, relevance, popularity,
    reason. *)
Record hashtag := {
  tag : str;
  relevance : Z;
  popularity : str;
  reason : str
}.

Definition insert_hashtags (post_id : Z) (tags : list hashtag) (seq : Z)
    (rows : list hashtag_row) : list hashtag_row * Z :=
  fold_left
    (fun acc t =>
       let '(rs, n) := acc in
       (rs ++ [{| h_id := n + 1; h_post_id := post_id; h_hashtag := tag t;
                  h_predicted_relevance := relevance t |}], n + 1))
    tags (rows, seq).

(** [save_prediction]: one row in [posts], one row in [hashtags] per tag. *)
Definition save_prediction (d : db) (pf : platform) (content : str)
    (tags : list hashtag) (predicted_score : Z) (now : Z) : db * Z :=
  let post_id := seq_posts d + 1 in
  let row := {| p_id := post_id; p_platform := pf; p_content := content;
                p_created_at := now;
                p_content_length := len content;
                p_has_question := if has_char question_mark content then 1 else 0;
                p_has_emoji := if has_emoji content then 1 else 0;
                p_predicted_score := predicted_score |} in
  let '(hs, n) := insert_hashtags post_id tags (seq_hashtags d) (hashtags d) in
  ({| posts := posts d ++ [row]; hashtags := hs;
      performance := performance d; hashtag_stats := hashtag_stats d;
      seq_posts := post_id; seq_hashtags := n;
      seq_performance := seq_performance d |}, post_id).

(** [((likes + comments + shares) / impressions) * 100], in binary64: the
    quotient of the two ints is rounded, and so is its product with 100. *)
Definition percentage (likes comments shares impressions : Z) : Q :=
  Q_of_float
    (int_true_divide (likes + comments + shares) impressions * 100)%float.

(** [engagement_rate = 0; if impressions > 0: ... / impressions * 100]. *)
Definition engagement_rate (likes comments shares impressions : Z) : Q :=
  if 0 <? impressions
  then percentage likes comments shares impressions
  else 0%Q.

(** [INSERT OR REPLACE INTO performance]: a row with the same [post_id]
    (the UNIQUE column) is deleted, then the new row is inserted. *)
Definition insert_or_replace_performance (row : performance_row)
    (rows : list performance_row) : list performance_row :=
  filter (fun r => negb (f_post_id r =? f_post_id row)) rows ++ [row].

(** The aggregate statement of [update_actual_performance] and of
    [DataImporter._import_row]:

    INSERT INTO hashtag_stats (hashtag, platform, total_uses, avg_engagement,
    last_used) VALUES (?, ?, 1, ?, now) ON CONFLICT(hashtag) DO UPDATE SET
    total_uses = total_uses + 1, avg_engagement = (avg_engagement *
    (total_uses - 1) + ?) / total_uses, last_used = now.

    The conflict target is the primary key [hashtag] alone.  In the DO UPDATE
    clause every column name on a right-hand side denotes the value the row
    had before the statement, so [total_uses] in the new average is the count
    before the increment.  (A row of this table has [total_uses >= 1], so
    the division is by a positive count.) *)
Definition do_update (rate : Q) (now : Z) (r : hashtag_stats_row)
    : hashtag_stats_row :=
  {| s_hashtag := s_hashtag r;
     s_platform := s_platform r;
     s_total_uses := s_total_uses r + 1;
     s_avg_engagement :=
       ((s_avg_engagement r * inject_Z (s_total_uses r - 1) + rate)
        / inject_Z (s_total_uses r))%Q;
     s_success_rate := s_success_rate r;
     s_last_used := now |}.

Definition upsert_hashtag_stats (t : str) (pf : platform) (rate : Q) (now : Z)
    (rows : list hashtag_stats_row) : list hashtag_stats_row :=
  if existsb (fun r => str_eqb (s_hashtag r) t) rows
  then map (fun r => if str_eqb (s_hashtag r) t then do_update rate now r else r)
           rows
  else rows ++ [{| s_hashtag := t; s_platform := pf; s_total_uses := 1;
                   s_avg_engagement := rate; s_success_rate := 0%Q;
                   s_last_used := now |}].

(** [SELECT hashtag FROM hashtags WHERE post_id = ?]. *)
Definition hashtags_of_post (d : db) (post_id : Z) : list str :=
  map h_hashtag (filter (fun h => h_post_id h =? post_id) (hashtags d)).

(** [SELECT platform FROM posts WHERE id = ?] then [fetchone()]. *)
Definition platform_of_post (d : db) (post_id : Z) : option platform :=
  match filter (fun p => p_id p =? post_id) (posts d) with
  | [] => None
  | p :: _ => Some (p_platform p)
  end.

(** [update_actual_performance].  The first statement binds the five ints:
    if one of them does not fit 64 bits, OverflowError is raised there,
    before anything is written (when the quotient of such ints is too large
    for a float, the division raises OverflowError even earlier; ints that
    fit are divided without error).  [fetchone()[0]] raises [TypeError] when
    the post does not exist; that happens before [commit], so nothing is
    stored then either. *)
Definition update_actual_performance (d : db)
    (post_id likes comments shares impressions : Z) (now : Z) : result db :=
  let rate := engagement_rate likes comments shares impressions in
  if negb (forallb int64 [post_id; likes; comments; shares; impressions])
  then Raise OverflowError
  else
  let perf := insert_or_replace_performance
    {| f_id := seq_performance d + 1; f_post_id := post_id; f_likes := likes;
       f_comments := comments; f_shares := shares;
       f_impressions := impressions; f_engagement_rate := rate;
       f_updated_at := now |} (performance d) in
  let tags := hashtags_of_post d post_id in
  match platform_of_post d post_id with
  | None => Raise TypeError
  | Some pf =>
      Return {| posts := posts d; hashtags := hashtags d;
                performance := perf;
                hashtag_stats :=
                  fold_left (fun rows t => upsert_hashtag_stats t pf rate now rows)
                            tags (hashtag_stats d);
                seq_posts := seq_posts d; seq_hashtags := seq_hashtags d;
                seq_performance := seq_performance d + 1 |}
  end.

(** The store a caller finds after a call: the committed one, or the old one
    when the call raised. *)
Definition store_after (d : db) (r : result db) : db :=
  match r with
  | Return d' => d'
  | Raise _ => d
  end.

(** [ORDER BY key DESC] and [sorted(..., reverse=True)]: a stable sort, rows
    with equal keys keep their order.  (SQL leaves the order of ties open;
    rowid order is what is modelled.) *)
Fixpoint insert_desc {A} (key : A -> Q) (x : A) (l : list A) : list A :=
  match l with
  | [] => [x]
  | y :: l' =>
      if Qgtb (key y) (key x) then y :: insert_desc key x l' else x :: y :: l'
  end.

Definition sort_desc {A} (key : A -> Q) (l : list A) : list A :=
  fold_right (insert_desc key) [] l.

(** The order of a list sorted by [key], descending. *)
Definition desc {A} (key : A -> Q) (a b : A) : Prop := (key b <= key a)%Q.

(** The dicts returned by [get_top_hashtags]. *)
Record top_hashtag := {
  t_hashtag : str;
  t_total_uses : Z;
  t_avg_engagement : Q;
  t_success_rate : Q
}.

(** [get_top_hashtags]: WHERE platform = ? AND total_uses >= 2 ORDER BY
    avg_engagement DESC LIMIT ?. *)
Definition get_top_hashtags (d : db) (pf : platform) (limit : nat)
    : list top_hashtag :=
  map (fun r => {| t_hashtag := s_hashtag r; t_total_uses := s_total_uses r;
                   t_avg_engagement := s_avg_engagement r;
                   t_success_rate := s_success_rate r |})
      (firstn limit
         (sort_desc s_avg_engagement
            (filter (fun r => platform_eqb (s_platform r) pf
                              && (2 <=? s_total_uses r))
                    (hashtag_stats d)))).

(** [posts p JOIN performance perf ON p.id = perf.post_id]: [p.id] is the
    primary key and [performance.post_id] is UNIQUE, so a post joins the one
    performance row that names it. *)
Definition perf_of_post (d : db) (post_id : Z) : option performance_row :=
  find (fun f => f_post_id f =? post_id) (performance d).

Definition tracked (d : db) : list (post_row * performance_row) :=
  flat_map (fun p => match perf_of_post d (p_id p) with
                     | Some f => [(p, f)]
                     | None => []
                     end) (posts d).

Definition tracked_on (d : db) (pf : platform)
    : list (post_row * performance_row) :=
  filter (fun pf' => platform_eqb (p_platform (fst pf')) pf) (tracked d).

Section Similar.
Context {U : PyStr}.

Definition ascii_letter (c : Z) : bool := ascii_upper c || ascii_lower c.

(** The maximal runs of [\w] characters of a string, left to right. *)
Fixpoint word_runs (s : str) (cur : str) : list str :=
  match s with
  | [] => match cur with [] => [] | _ => [rev cur] end
  | c :: s' =>
      if re_word c then word_runs s' (c :: cur)
      else match cur with
           | [] => word_runs s' []
           | _ => rev cur :: word_runs s' []
           end
  end.

(** [re.findall(r'\b[a-zA-Z]{n,}\b', s)]: between two word boundaries lies a
    whole run of [\w] characters, so the matches are the runs made of ASCII
    letters only, of length at least [n]. *)
Definition findall_letters (n : nat) (s : str) : list str :=
  filter (fun w => forallb ascii_letter w && (n <=? List.length w)%nat)
         (word_runs s []).

Definition keyword_set (content : str) : list str :=
  to_set (findall_letters 4 (str_lower content)).

(** [len(a & b) / len(a | b) if a | b else 0]. *)
Definition similarity (a b : list str) : Q :=
  match set_union a b with
  | [] => 0%Q
  | u => (inject_Z (len (set_inter a b)) / inject_Z (len u))%Q
  end.

(** [GROUP_CONCAT(h.hashtag, ', ')]. *)
Fixpoint group_concat (l : list str) : str :=
  match l with
  | [] => []
  | [x] => x
  | x :: l' => x ++ lit ", " ++ group_concat l'
  end.

(** A row of the candidate query: id, content, engagement rate, hashtags. *)
Definition candidate := (Z * str * Q * str)%type.

Definition c_rate (c : candidate) : Q := snd (fst c).

(** The SELECT of [get_similar_successful_posts]: the further JOIN with
    [hashtags] drops posts that have no hashtag row. *)
Definition candidates (d : db) (pf : platform) (limit : nat) : list candidate :=
  firstn (limit * 2)
    (sort_desc c_rate
       (flat_map
          (fun pf' =>
             let '(p, f) := pf' in
             match hashtags_of_post d (p_id p) with
             | [] => []
             | hs =>
                 if Qgtb (f_engagement_rate f) 3
                 then [(p_id p, p_content p, f_engagement_rate f,
                        group_concat hs)]
                 else []
             end)
          (tracked_on d pf))).

Record similar_post := {
  sp_post_id : Z;
  sp_content : str;
  sp_engagement_rate : Q;
  sp_hashtags : str;
  sp_similarity : Q
}.

Definition excerpt (content : str) : str :=
  if 100 <? len content then firstn 100 content ++ lit "..." else content.

(** The loop over the fetched rows: keep those with similarity > 0.2. *)
Definition keep_similar (keywords : list str) (rows : list candidate)
    : list similar_post :=
  flat_map
    (fun row =>
       let '(id, content, rate, tags) := row in
       let s := similarity keywords (keyword_set content) in
       if Qgtb s (2 # 10)
       then [{| sp_post_id := id; sp_content := excerpt content;
                sp_engagement_rate := rate; sp_hashtags := tags;
                sp_similarity := s |}]
       else [])
    rows.

Definition get_similar_successful_posts (d : db) (content : str)
    (pf : platform) (limit : nat) : list similar_post :=
  firstn limit
    (sort_desc sp_engagement_rate
       (keep_similar (keyword_set content) (candidates d pf limit))).

End Similar.

(** The dict returned by [get_learning_insights]; an absent key and a [None]
    value are both [None]. *)
Record insights := {
  total_posts : Z;
  tracked_posts : Z;
  avg_engagement : Q;
  best_hashtag : option (str * Q);
  optimal_length : option Z
}.

(** [x if x else 0] on the result of [AVG]. *)
Definition or_zero (x : option Q) : Q :=
  match x with
  | Some q => if Qeq_bool q 0 then 0%Q else q
  | None => 0%Q
  end.

(** [int(x) if x else None] on the result of [AVG]. *)
Definition int_or_none (x : option Q) : option Z :=
  match x with
  | Some q => if Qeq_bool q 0 then None else Some (int_of q)
  | None => None
  end.

Section Insights.
Context {U : PyStr}.

(** The last SELECT of [get_learning_insights]: the lengths of the
    platform's tracked posts whose stored rate exceeds the sub-select
    [(SELECT AVG(engagement_rate) FROM performance)], which ranges over the
    whole [performance] table and is a double computed by SQLite. *)
Definition above_average_lengths (d : db) (pf : platform) : list Q :=
  match sqlite_avg (map f_engagement_rate (performance d)) with
  | None => []
  | Some m =>
      map (fun pf' => inject_Z (p_content_length (fst pf')))
          (filter (fun pf' => Qgtb (f_engagement_rate (snd pf')) m)
                  (tracked_on d pf))
  end.

(** [get_learning_insights].  The average of [content_length], an INTEGER
    column, is taken exactly: the lengths of stored texts are added without
    rounding (their sum is far below 2^53), the one division is rounded
    correctly, and [int] of such a quotient is the integer quotient.  The
    rates of [avg_engagement] are handed to [AVG] in the order of the posts;
    the order of a join is the query planner's, and it can only matter to
    the last digit of that average. *)
Definition get_learning_insights (d : db) (pf : platform) : insights := {|
  total_posts := len (filter (fun p => platform_eqb (p_platform p) pf) (posts d));
  tracked_posts := len (tracked_on d pf);
  avg_engagement :=
    or_zero (sqlite_avg (map (fun pf' => f_engagement_rate (snd pf'))
                             (tracked_on d pf)));
  best_hashtag :=
    match sort_desc s_avg_engagement
            (filter (fun r => platform_eqb (s_platform r) pf
                              && (3 <=? s_total_uses r))
                    (hashtag_stats d)) with
    | [] => None
    | r :: _ => Some (s_hashtag r, s_avg_engagement r)
    end;
  optimal_length := int_or_none (AVG (above_average_lengths d pf))
|}.

End Insights.

End PerformanceDatabase.

(** ** The weights of the composite score

    The composite score multiplies the four sub-scores by the literals 0.35,
    0.35, 0.20 and 0.10, none of which is a binary fraction. *)

(** The doubles nearest to 0.35, 0.20 and 0.10. *)
Definition w035 : float := 0x1.6666666666666p-2%float.
Definition w020 : float := 0x1.999999999999ap-3%float.
Definition w010 : float := 0x1.999999999999ap-4%float.

(** ** The analyzer: [EnhancedHashtagAnalyzer] *)

Module EnhancedHashtagAnalyzer.
Import PerformanceDatabase.

(** What [self.ollama.generate] and the decoding of its text came to: no
    response, a response from which no list of hashtag dicts was decoded
    (no JSON array found, or an exception inside the [try]), or the decoded
    list. *)
Inductive oracle_reply :=
| Unavailable
| Malformed
| Decoded (l : list hashtag).

Record scores := {
  content_quality : Z;
  hashtag_strategy : Z;
  timing_relevance : Z;
  data_confidence : Z;
  engagement_potential : Z
}.

(** The messages of [_generate_insights_with_learning], by kind. *)
Inductive insight :=
| HighConfidence (n : Z)
| GrowingDataset (n : Z)
| BuildingKnowledge
| LengthHint (optimal : Z) (pf : platform)
| TopPerformer (t : str) (engagement : Q)
| Excellent
| Good
| NeedsOptimization.

Record analysis := {
  a_hashtags : list hashtag;
  a_performance_score : scores;
  a_insights : list insight;
  a_post_id : Z;
  a_similar_posts : list similar_post;
  a_learning_insights : insights
}.

Definition common_words : list str :=
  map lit ["this"; "that"; "with"; "from"; "have"; "been"; "were"; "their";
           "would"; "about"; "when"; "just"; "like"; "some"; "what"; "your";
           "will"; "they"; "them"; "into"; "than"; "more"; "very"; "can"]%string.

Definition generic_tags : list str :=
  map lit ["content"; "socialmedia"; "marketing"; "community"; "growth";
           "tips"; "inspiration"; "motivation"; "business"; "success";
           "trending"; "viral"; "engage"; "share"; "follow"]%string.

Definition timely_keywords : list str :=
  map lit ["new"; "now"; "today"; "breaking"; "update"; "trending"]%string.

(** The marker ['[✓ Data:'] looked for in a reason. *)
Definition data_marker : str := [91; 0x2713; 32; 68; 97; 116; 97; 58].

(** [3 if platform == 'Twitter' else 12]. *)
Definition num_hashtags (pf : platform) : nat :=
  match pf with
  | Twitter => 3
  | Instagram => 12
  end.

Section Analyzer.
Context {U : PyStr}.

(** *** The proposer *)

Definition keywords_of (text : str) : list str :=
  filter (fun w => negb (mem_str w common_words))
         (findall_letters 3 (str_lower text)).

(** [any(h['tag'].lower() == t for h in hashtags)]. *)
Definition tag_taken (hs : list hashtag) (t : str) : bool :=
  existsb (fun h => str_eqb (str_lower (tag h)) t) hs.

(** Strategy 1: the loop over [enumerate(keywords[:target_count])]. *)
Fixpoint add_keywords (target : nat) (i : Z) (ws : list str)
    (hs : list hashtag) : list hashtag :=
  match ws with
  | [] => hs
  | w :: ws' =>
      if (target <=? List.length hs)%nat then hs
      else add_keywords target (i + 1) ws'
             (hs ++ [{| tag := w; relevance := 85 - i * 5;
                        popularity := lit "Medium";
                        reason := lit "Extracted from content keywords" |}])
  end.

(** Strategy 2: the loop over [top_hashtags]. *)
Fixpoint add_proven (target : nat) (tops : list top_hashtag)
    (hs : list hashtag) : list hashtag :=
  match tops with
  | [] => hs
  | t :: tops' =>
      if (target <=? List.length hs)%nat then hs
      else if tag_taken hs (str_lower (t_hashtag t))
      then add_proven target tops' hs
      else add_proven target tops'
             (hs ++ [{| tag := t_hashtag t; relevance := 90;
                        popularity := lit "High";
                        reason := lit "Proven performer: "
                                  ++ format_1f (t_avg_engagement t)
                                  ++ lit "% avg" |}])
  end.

(** Strategy 3: the loop over [generic_tags]. *)
Fixpoint add_generic (target : nat) (gs : list str) (hs : list hashtag)
    : list hashtag :=
  match gs with
  | [] => hs
  | g :: gs' =>
      if (target <=? List.length hs)%nat then hs
      else if tag_taken hs g then add_generic target gs' hs
      else add_generic target gs'
             (hs ++ [{| tag := g; relevance := 70;
                        popularity := lit "Medium";
                        reason := lit "General engagement hashtag" |}])
  end.

Definition _fallback_hashtags (text : str) (pf : platform)
    (top_hashtags : list top_hashtag) : list hashtag :=
  let target_count := num_hashtags pf in
  let keywords := keywords_of text in
  let h1 := add_keywords target_count 0 (firstn target_count keywords) [] in
  let h2 :=
    if (List.length h1 <? target_count)%nat
       && negb (Nat.eqb (List.length top_hashtags) 0)
    then add_proven target_count top_hashtags h1 else h1 in
  let h3 :=
    if (List.length h2 <? target_count)%nat
    then add_generic target_count generic_tags h2 else h2 in
  firstn target_count h3.

(** The inner loop of the boost: every matching entry of [top_hashtags]
    raises the relevance by 10 (at most 100) and appends the data note. *)
Definition boost (top_hashtags : list top_hashtag) (h : hashtag) : hashtag :=
  fold_left
    (fun h t =>
       if str_eqb (str_lower (tag h)) (str_lower (t_hashtag t))
       then {| tag := tag h;
               relevance := Z.min 100 (relevance h + 10);
               popularity := popularity h;
               reason := reason h ++ lit " " ++ data_marker ++ lit " "
                         ++ format_1f (t_avg_engagement t) ++ lit "% avg]" |}
       else h)
    top_hashtags h.

(** [_generate_hashtags_with_learning], from the reply of the oracle on.
    (The prompt, which is all [similar_posts] is used for, goes to the
    oracle.) *)
Definition _generate_hashtags_with_learning (text : str) (pf : platform)
    (top_hashtags : list top_hashtag) (reply : oracle_reply) : list hashtag :=
  match reply with
  | Decoded l =>
      if (List.length l <? num_hashtags pf)%nat
      then _fallback_hashtags text pf top_hashtags
      else firstn (num_hashtags pf) (map (boost top_hashtags) l)
  | _ => _fallback_hashtags text pf top_hashtags
  end.

(** *** The scorer *)

Definition clamp (score : Z) : Z := Z.min 100 (Z.max 0 score).

(** [insights.get('optimal_length')] as a condition: neither absent, [None]
    nor 0. *)
Definition known_optimal (ins : insights) : option Z :=
  match optimal_length ins with
  | Some o => if o =? 0 then None else Some o
  | None => None
  end.

Definition _score_content_quality_learned (text : str) (pf : platform)
    (ins : insights) : result Z :=
  let score := 50 in
  let text_length := len text in
  let score :=
    match known_optimal ins with
    | Some optimal =>
        let length_diff := Z.abs (text_length - optimal) in
        if length_diff <? 50 then score + 25
        else if length_diff <? 100 then score + 15
        else score + 5
    | None =>
        match pf with
        | Twitter =>
            if (100 <=? text_length) && (text_length <=? 280)
            then score + 20 else score
        | Instagram =>
            if (138 <=? text_length) && (text_length <=? 2200)
            then score + 20 else score
        end
    end in
  let score := if has_char question_mark text then score + 10 else score in
  let score := if has_emoji text then score + 10 else score in
  match text with
  | [] => Raise IndexError
  | c :: _ =>
      let score := if chr_isupper c then score + 5 else score in
      Return (clamp score)
  end.

Definition _score_hashtag_strategy (hashtags : list hashtag) (pf : platform)
    : Z :=
  match hashtags with
  | [] => 0
  | _ =>
      let score := 50 in
      let count := len hashtags in
      let score :=
        match pf with
        | Twitter =>
            if (1 <=? count) && (count <=? 3) then score + 25 else score - 15
        | Instagram =>
            if (8 <=? count) && (count <=? 15) then score + 25
            else if (5 <=? count) && (count <? 8) then score + 15
            else score
        end in
      let avg_relevance :=
        (inject_Z (Zsum (map relevance hashtags))
         / inject_Z (len hashtags))%Q in
      let score := score + int_of ((avg_relevance - 50) / 2)%Q in
      let data_backed :=
        len (filter (fun h => contains data_marker (reason h)) hashtags) in
      let score := score + Z.min 15 (data_backed * 5) in
      clamp score
  end.

(** [_score_timing]; [weekday] is [datetime.now().weekday()], Monday 0. *)
Definition _score_timing (text : str) (weekday : Z) : Z :=
  let score := 60 in
  let score :=
    if existsb (fun k => contains k (str_lower text)) timely_keywords
    then score + 20 else score in
  let score :=
    if (weekday =? 1) || (weekday =? 2) || (weekday =? 3)
    then score + 10 else score in
  Z.min 100 score.

Definition _calculate_data_confidence (ins : insights) : Z :=
  if tracked_posts ins =? 0 then 30
  else if tracked_posts ins <? 10 then 50
  else if tracked_posts ins <? 50 then 75
  else 95.

(** The weighted sum inside [int(...)], in binary64, added left to right. *)
Definition weighted_sum (cq hs tr dc : Z) : float :=
  (float_of_int cq * w035 + float_of_int hs * w035
   + float_of_int tr * w020 + float_of_int dc * w010)%float.

Definition _score_with_learning (text : str) (hashtags : list hashtag)
    (pf : platform) (ins : insights) (weekday : Z) : result scores :=
  bind (_score_content_quality_learned text pf ins) (fun cq =>
  let hs := _score_hashtag_strategy hashtags pf in
  let tr := _score_timing text weekday in
  let dc := _calculate_data_confidence ins in
  Return {| content_quality := cq; hashtag_strategy := hs;
            timing_relevance := tr; data_confidence := dc;
            engagement_potential := int_of_float (weighted_sum cq hs tr dc) |}).

(** *** The insight generator *)

Definition _generate_insights_with_learning (text : str) (pf : platform)
    (sc : scores) (ins : insights) : list insight :=
  [if 75 <=? data_confidence sc then HighConfidence (tracked_posts ins)
   else if 50 <=? data_confidence sc then GrowingDataset (tracked_posts ins)
   else BuildingKnowledge]
  ++ match known_optimal ins with
     | Some optimal_len =>
         if 100 <? Z.abs (len text - optimal_len)
         then [LengthHint optimal_len pf] else []
     | None => []
     end
  ++ match best_hashtag ins with
     | Some (t, e) => [TopPerformer t e]
     | None => []
     end
  ++ [if 80 <=? engagement_potential sc then Excellent
      else if 65 <=? engagement_potential sc then Good
      else NeedsOptimization].

(** [analyze_content]: the three queries, the proposer, the scorer, the
    insights, then [save_prediction]. *)
Definition analyze_content (d : db) (text : str) (pf : platform)
    (reply : oracle_reply) (weekday now : Z) : result (analysis * db) :=
  let top_hashtags := get_top_hashtags d pf 15 in
  let similar_posts := get_similar_successful_posts d text pf 5 in
  let learning_insights := get_learning_insights d pf in
  let hashtags :=
    _generate_hashtags_with_learning text pf top_hashtags reply in
  bind (_score_with_learning text hashtags pf learning_insights weekday)
    (fun performance_score =>
  let insights :=
    _generate_insights_with_learning text pf performance_score
      learning_insights in
  let '(d', post_id) :=
    save_prediction d pf text hashtags
      (engagement_potential performance_score) now in
  Return ({| a_hashtags := hashtags;
             a_performance_score := performance_score;
             a_insights := insights; a_post_id := post_id;
             a_similar_posts := similar_posts;
             a_learning_insights := learning_insights |}, d')).

End Analyzer.

End EnhancedHashtagAnalyzer.

(** ** The tracking tab *)

(** What the operator sees after pressing the save button. *)
Inductive tracking_outcome :=
| Saved (rate : Q)        (* the success box with the engagement rate *)
| Rejected                (* "Please enter impressions greater than 0" *)
| Crashed (e : exn).

(** The button handler of [tracking_tab]: the only caller of
    [update_actual_performance]. *)
Definition tracking_tab (d : PerformanceDatabase.db)
    (post_id likes comments shares impressions : Z) (now : Z)
    : tracking_outcome * PerformanceDatabase.db :=
  if 0 <? impressions then
    match PerformanceDatabase.update_actual_performance
            d post_id likes comments shares impressions now with
    | Return d' =>
        (Saved (PerformanceDatabase.percentage likes comments shares
                                               impressions), d')
    | Raise e => (Crashed e, d)
    end
  else (Rejected, d).

(** ** The specification's wording, for comparison with the code *)

Module Spec.
Import PerformanceDatabase.

(** "The engagement rates recorded for every outcome-backed post that used
    this tag on this platform". *)
Definition recorded_rates (d : db) (t : str) (pf : platform) : list Q :=
  map (fun x => f_engagement_rate (snd x))
      (filter (fun x => mem_str t (hashtags_of_post d (p_id (fst x))))
              (tracked_on d pf)).

(** The aggregate row of a tag, if there is one. *)
Definition aggregate (rows : list hashtag_stats_row) (t : str)
    : option hashtag_stats_row :=
  find (fun r => str_eqb (s_hashtag r) t) rows.

(** Repeated reports for one tag: the aggregate statement run once per
    rate. *)
Definition report_rates (pf : platform) (now : Z) (t : str) (rates : list Q)
    (rows : list hashtag_stats_row) : list hashtag_stats_row :=
  fold_left (fun rows rate => upsert_hashtag_stats t pf rate now rows)
            rates rows.

(** "avg' = (avg * (n-1) + rate) / n after incrementing n": the update as
    the specification words it, on a (count, average) pair. *)
Definition incremental_mean (st : Z * Q) (rate : Q) : Z * Q :=
  let n := fst st + 1 in
  (n, ((snd st * inject_Z (n - 1) + rate) / inject_Z n)%Q).

(** "The platform-wide mean engagement rate". *)
Definition platform_mean (d : db) (pf : platform) : option Q :=
  AVG (map (fun x => f_engagement_rate (snd x)) (tracked_on d pf)).

(** "Mean character length of outcome-backed posts whose engagement rate
    exceeds the platform-wide mean engagement rate (null if no such posts
    exist)". *)
Definition optimal_length_spec (d : db) (pf : platform) : option Q :=
  match platform_mean d pf with
  | None => None
  | Some m =>
      AVG (map (fun x => inject_Z (p_content_length (fst x)))
               (filter (fun x => Qgtb (f_engagement_rate (snd x)) m)
                       (tracked_on d pf)))
  end.

(** The outcome-backed posts of a platform, each with its outcome record:
    the posts of the platform that an outcome record names, in the order of
    the posts. *)
Definition outcome_backed (d : db) (pf : platform)
    : list (post_row * performance_row) :=
  flat_map
    (fun p =>
       if platform_eqb (p_platform p) pf
       then match find (fun f => f_post_id f =? p_id p) (performance d) with
            | Some f => [(p, f)]
            | None => []
            end
       else [])
    (posts d).

Section OverallMean.
Context {U : PyStr}.

(** The platform's outcome-backed posts whose stored rate exceeds the
    average, as SQLite computes it, of the rates of all outcome records, of
    either platform. *)
Definition above_overall_mean (d : db) (pf : platform)
    : list (post_row * performance_row) :=
  filter
    (fun x =>
       match sqlite_avg (map f_engagement_rate (performance d)) with
       | Some m => negb (Qle_bool (f_engagement_rate (snd x)) m)
       | None => false
       end)
    (outcome_backed d pf).

End OverallMean.











(** The length contribution of the content-quality score. *)
Definition length_bonus (length : Z) (pf : platform) (optimal : option Z) : Z :=
  match optimal with
  | Some o =>
      if Z.abs (length - o) <? 50 then 25
      else if Z.abs (length - o) <? 100 then 15 else 5
  | None =>
      match pf with
      | Twitter => if (100 <=? length) && (length <=? 280) then 20 else 0
      | Instagram => if (138 <=? length) && (length <=? 2200) then 20 else 0
      end
  end.

(** "A fixed emoji set": the nine emoji of the literal, the heart being the
    sequence U+2764 U+FE0F. *)
Definition emoji_set : list str :=
  [[0x1F60A]; [0x1F525]; [0x1F4AF]; [0x2764; 0xFE0F]; [0x1F44D]; [0x1F389];
   [0x2728]; [0x1F4AA]; [0x1F64C]].

(** The content-quality score as the specification words it, [first_upper]
    telling whether the first character is uppercase: "add 10 if text
    contains any of a fixed emoji set". *)
Definition content_quality_claimed (text : str) (pf : platform)
    (optimal : option Z) (first_upper : bool) : Z :=
  Z.min 100
    (Z.max 0
       (50 + length_bonus (len text) pf optimal
        + (if has_char 63 text then 10 else 0)
        + (if existsb (fun e => contains e text) emoji_set then 10 else 0)
        + (if first_upper then 5 else 0))).

End Spec.

(** ** Sample stores and inputs *)

Module Samples.
Import PerformanceDatabase EnhancedHashtagAnalyzer.

Definition keyword_tag (t : string) (rel : Z) : hashtag :=
  {| tag := lit t; relevance := rel; popularity := lit "Medium";
     reason := lit "Extracted from content keywords" |}.

(** A store after the predictions [posts] were saved; the post ids are 1, 2,
    ... and the timestamps equal the ids. *)
Fixpoint saved (d : db) (posts : list (platform * string * list hashtag))
    : db :=
  match posts with
  | [] => d
  | (pf, text, tags) :: rest =>
      saved (fst (save_prediction d pf (lit text) tags 70 (seq_posts d + 1)))
            rest
  end.

(** One outcome report (likes only) applied to a store. *)
Definition reported (d : db) (post_id likes impressions : Z) : db :=
  store_after d (update_actual_performance d post_id likes 0 0 impressions 9).

(** Two Twitter posts that both use the tag "launch". *)
Definition two_launches : db :=
  saved init_database
    [(Twitter, "Launch day", [keyword_tag "launch" 85]);
     (Twitter, "Second launch", [keyword_tag "launch" 85])]%string.

(** A Twitter post and an Instagram post that share the tag "launch". *)
Definition shared_tag : db :=
  saved init_database
    [(Twitter, "Launch day", [keyword_tag "launch" 85]);
     (Instagram, "Launch party", [keyword_tag "launch" 85])]%string.

(** Several outcome reports [(post_id, likes, impressions)] in a row. *)
Definition reports (d : db) (l : list (Z * Z * Z)) : db :=
  fold_left (fun d r => let '(id, likes, imp) := r in reported d id likes imp)
            l d.

(** Two Twitter posts of lengths 10 and 20 with rates 25 and 50, and two
    Instagram posts with rate 0. *)
Definition two_platforms : db :=
  reports
    (saved init_database
       [(Twitter, "Launch day", [keyword_tag "launch" 85]);
        (Twitter, "Launch day, round 2!", [keyword_tag "launch" 85]);
        (Instagram, "Launch party", [keyword_tag "party" 85]);
        (Instagram, "After the party", [keyword_tag "party" 85])]%string)
    [(1, 1, 4); (2, 2, 4); (3, 0, 4); (4, 0, 4)].

(** Three Twitter posts of lengths 10, 11 and 5 with rates 50, 50 and 0. *)
Definition one_platform : db :=
  reports
    (saved init_database
       [(Twitter, "Launch day", [keyword_tag "launch" 85]);
        (Twitter, "Launch days", [keyword_tag "launch" 85]);
        (Twitter, "Hello", [keyword_tag "hello" 85])]%string)
    [(1, 2, 4); (2, 2, 4); (3, 0, 4)].

(** Five Twitter posts with rates 4, 5, 10, 2 and 50; the last one has no
    hashtag. *)
Definition similar_store : db :=
  reports
    (saved init_database
       [(Twitter, "Launch your product with great content",
         [keyword_tag "launch" 85; keyword_tag "product" 80]);
        (Twitter, "Great content helps product launch",
         [keyword_tag "content" 85]);
        (Twitter, "Weather is nice today", [keyword_tag "weather" 85]);
        (Twitter, "Great product launch content again",
         [keyword_tag "again" 85]);
        (Twitter, "Product launch, great content", [])]%string)
    [(1, 4, 100); (2, 5, 100); (3, 10, 100); (4, 2, 100); (5, 50, 100)].

(** Six Twitter posts of length 10, each reported with 1 like on 3
    impressions: six equal rates, the double 33.333333333333329. *)
Definition six_thirds : db :=
  reports
    (saved init_database
       (repeat (Twitter, "Launch day", [keyword_tag "launch" 85])%string 6))
    [(1, 1, 3); (2, 1, 3); (3, 1, 3); (4, 1, 3); (5, 1, 3); (6, 1, 3)].

Definition no_insights : insights :=
  {| total_posts := 0; tracked_posts := 0; avg_engagement := 0%Q;
     best_hashtag := None; optimal_length := None |}.

(** Insights whose learned optimal length is [o]. *)
Definition with_optimal (o : Z) : insights :=
  {| total_posts := 0; tracked_posts := 0; avg_engagement := 0%Q;
     best_hashtag := None; optimal_length := Some o |}.

(** The text of [n] letters "a". *)
Definition letters (n : nat) : str := repeat 97 n.

End Samples.

(** * Properties *)

Import PerformanceDatabase EnhancedHashtagAnalyzer.

Lemma str_eqb_eq (a b : str) : str_eqb a b = true <-> a = b.
Proof.
  revert b; induction a as [|x a IH]; intros [|y b]; simpl; split; intro H;
    try reflexivity; try discriminate.
  - apply andb_true_iff in H as [Hx Hab]. apply Z.eqb_eq in Hx.
    apply IH in Hab. now subst.
  - injection H as -> ->. apply andb_true_iff; split.
    + apply Z.eqb_refl.
    + now apply IH.
Qed.

Lemma str_eqb_refl (a : str) : str_eqb a a = true.
Proof. now apply str_eqb_eq. Qed.

Lemma str_eqb_neq (a b : str) : str_eqb a b = false <-> a <> b.
Proof.
  split.
  - intros H E. apply str_eqb_eq in E. congruence.
  - intro H. destruct (str_eqb a b) eqn:E; [|reflexivity].
    apply str_eqb_eq in E. contradiction.
Qed.

Lemma str_eq_dec (a b : str) : {a = b} + {a <> b}.
Proof. apply list_eq_dec, Z.eq_dec. Qed.

(** ** The aggregate statement *)

Section Aggregates.

Variables (pf : platform) (now : Z).

Lemma aggregate_upsert_other t t' rate rows :
  t' <> t ->
  Spec.aggregate (upsert_hashtag_stats t pf rate now rows) t'
  = Spec.aggregate rows t'.
Proof.
  intro Hne. unfold upsert_hashtag_stats, Spec.aggregate.
  destruct (existsb _ rows) eqn:Ex.
  - clear Ex. induction rows as [|r rows IH]; simpl; [reflexivity|].
    destruct (str_eqb (s_hashtag r) t) eqn:Et; simpl.
    + apply str_eqb_eq in Et.
      assert (str_eqb (s_hashtag r) t' = false) as ->
        by (apply str_eqb_neq; congruence).
      exact IH.
    + destruct (str_eqb (s_hashtag r) t'); [reflexivity | exact IH].
  - clear Ex. induction rows as [|r rows IH]; simpl.
    + assert (str_eqb t t' = false) as -> by (apply str_eqb_neq; congruence).
      reflexivity.
    + destruct (str_eqb (s_hashtag r) t'); [reflexivity | exact IH].
Qed.

Lemma aggregate_upsert_new t rate rows :
  Spec.aggregate rows t = None ->
  Spec.aggregate (upsert_hashtag_stats t pf rate now rows) t
  = Some {| s_hashtag := t; s_platform := pf; s_total_uses := 1;
            s_avg_engagement := rate; s_success_rate := 0%Q;
            s_last_used := now |}.
Proof.
  intro Hnone. unfold upsert_hashtag_stats, Spec.aggregate in *.
  assert (existsb (fun r => str_eqb (s_hashtag r) t) rows = false) as ->.
  { induction rows as [|r rows IH]; simpl in *; [reflexivity|].
    destruct (str_eqb (s_hashtag r) t); [discriminate | now apply IH]. }
  induction rows as [|r rows IH]; simpl in *.
  - now rewrite str_eqb_refl.
  - destruct (str_eqb (s_hashtag r) t); [discriminate | now apply IH].
Qed.

Lemma aggregate_upsert_old t rate rows r :
  Spec.aggregate rows t = Some r ->
  Spec.aggregate (upsert_hashtag_stats t pf rate now rows) t
  = Some (do_update rate now r).
Proof.
  intro Hsome. unfold upsert_hashtag_stats, Spec.aggregate in *.
  assert (existsb (fun r => str_eqb (s_hashtag r) t) rows = true) as ->.
  { induction rows as [|r0 rows IH]; simpl in *; [discriminate|].
    destruct (str_eqb (s_hashtag r0) t); [reflexivity | now apply IH]. }
  induction rows as [|r0 rows IH]; simpl in *; [discriminate|].
  destruct (str_eqb (s_hashtag r0) t) eqn:Et; simpl.
  - injection Hsome as <-. now rewrite Et.
  - rewrite Et. now apply IH.
Qed.

Lemma do_update_invariant (r : hashtag_stats_row) (rate acc : Q) :
  1 <= s_total_uses r ->
  (s_avg_engagement r * inject_Z (s_total_uses r - 1) == acc)%Q ->
  (s_avg_engagement (do_update rate now r)
   * inject_Z (s_total_uses (do_update rate now r) - 1) == acc + rate)%Q.
Proof.
  intros Hn Hacc. simpl.
  replace (s_total_uses r + 1 - 1) with (s_total_uses r) by lia.
  rewrite <- Hacc. field.
  intro H0. apply (Qeq_bool_neq 0 0); [|reflexivity].
  unfold Qeq in H0. simpl in H0. lia.
Qed.

Lemma report_rates_invariant t rates : forall rows r acc,
  Spec.aggregate rows t = Some r ->
  1 <= s_total_uses r ->
  (s_avg_engagement r * inject_Z (s_total_uses r - 1) == acc)%Q ->
  exists r',
    Spec.aggregate (Spec.report_rates pf now t rates rows) t = Some r'
    /\ s_total_uses r' = s_total_uses r + len rates
    /\ (s_avg_engagement r' * inject_Z (s_total_uses r' - 1)
        == acc + Qsum rates)%Q.
Proof.
  induction rates as [|x rates IH]; intros rows r acc Hr Hn Hacc; simpl.
  - exists r. repeat split; [exact Hr | unfold len; simpl; lia |].
    rewrite Hacc. ring.
  - destruct (IH (upsert_hashtag_stats t pf x now rows) (do_update x now r)
                 (acc + x)%Q) as (r' & Hr' & Hn' & Hacc').
    + now apply aggregate_upsert_old.
    + simpl. lia.
    + now apply do_update_invariant.
    + exists r'. repeat split; [exact Hr' | |].
      * rewrite Hn'. simpl s_total_uses. unfold len. simpl List.length. lia.
      * rewrite Hacc'. ring.
Qed.

(** What the stored average is after the reports [first :: later] for a tag
    that had no aggregate: the use count is the number of reports, and the
    average times the number of later reports is the sum of the later rates
    alone.  The first rate is dropped by the second report. *)
Lemma aggregate_after_reports t first later rows :
  Spec.aggregate rows t = None ->
  exists r,
    Spec.aggregate (Spec.report_rates pf now t (first :: later) rows) t
    = Some r
    /\ s_total_uses r = 1 + len later
    /\ (s_avg_engagement r * inject_Z (len later) == Qsum later)%Q.
Proof.
  intro Hnone. simpl.
  destruct (report_rates_invariant t later
              (upsert_hashtag_stats t pf first now rows)
              {| s_hashtag := t; s_platform := pf; s_total_uses := 1;
                 s_avg_engagement := first; s_success_rate := 0%Q;
                 s_last_used := now |} 0%Q) as (r & Hr & Hn & Hacc).
  - now apply aggregate_upsert_new.
  - simpl. lia.
  - simpl. ring.
  - exists r. cbn [s_total_uses] in Hn. repeat split; [exact Hr | exact Hn |].
    rewrite Hn in Hacc.
    replace (1 + len later - 1) with (len later) in Hacc by lia.
    rewrite Hacc. ring.
Qed.

(** The update as the specification words it does keep the mean: with the
    count incremented first, the average times the count is the sum of all
    rates. *)
Lemma incremental_mean_is_the_mean (rates : list Q) :
  let st := fold_left Spec.incremental_mean rates (0, 0%Q) in
  fst st = len rates /\ (snd st * inject_Z (len rates) == Qsum rates)%Q.
Proof.
  assert (H : forall rates n avg acc,
             0 <= n -> (avg * inject_Z n == acc)%Q ->
             let st := fold_left Spec.incremental_mean rates (n, avg) in
             fst st = n + len rates
             /\ (snd st * inject_Z (n + len rates) == acc + Qsum rates)%Q).
  { clear rates. induction rates as [|x rates IH]; intros n avg acc Hn Hacc.
    - simpl. unfold len. simpl. rewrite Z.add_0_r. split; [reflexivity|].
      rewrite Hacc. ring.
    - cbn [fold_left]. unfold Spec.incremental_mean at 2. cbn [fst snd].
      destruct (IH (n + 1)
                   ((avg * inject_Z (n + 1 - 1) + x) / inject_Z (n + 1))%Q
                   (acc + x)%Q) as [Hfst Hsnd].
      + lia.
      + replace (n + 1 - 1) with n by lia. rewrite Hacc. field.
        intro H0. unfold Qeq in H0. simpl in H0. lia.
      + replace (n + len (x :: rates)) with (n + 1 + len rates)
          by (unfold len; simpl List.length; lia).
        split; [exact Hfst|]. rewrite Hsnd. simpl. ring. }
  destruct (H rates 0 0%Q 0%Q) as [Hfst Hsnd]; [lia | ring |].
  simpl in *. split; [exact Hfst|]. rewrite Hsnd. ring.
Qed.

(** *** The primary key of [hashtag_stats] *)

Lemma upsert_keys t rate rows :
  map s_hashtag (upsert_hashtag_stats t pf rate now rows)
  = if existsb (fun r => str_eqb (s_hashtag r) t) rows
    then map s_hashtag rows else map s_hashtag rows ++ [t].
Proof.
  unfold upsert_hashtag_stats. destruct (existsb _ rows).
  - rewrite map_map. apply map_ext. intro r.
    now destruct (str_eqb (s_hashtag r) t).
  - now rewrite map_app.
Qed.

Lemma upsert_NoDup t rate rows :
  NoDup (map s_hashtag rows) ->
  NoDup (map s_hashtag (upsert_hashtag_stats t pf rate now rows)).
Proof.
  intro Hnd. rewrite upsert_keys.
  destruct (existsb _ rows) eqn:Ex; [exact Hnd|].
  apply NoDup_app; [exact Hnd | repeat constructor; intros [] |].
  intros k Hk [Hkt|[]]. apply in_map_iff in Hk as (r & Hkey & Hr).
  assert (existsb (fun r => str_eqb (s_hashtag r) t) rows = true).
  { apply existsb_exists. exists r. split; [exact Hr|].
    apply str_eqb_eq. congruence. }
  congruence.
Qed.

Lemma fold_upsert_NoDup rate tags : forall rows,
  NoDup (map s_hashtag rows) ->
  NoDup (map s_hashtag
           (fold_left (fun rows t => upsert_hashtag_stats t pf rate now rows)
                      tags rows)).
Proof.
  induction tags as [|t tags IH]; intros rows Hnd; simpl; [exact Hnd|].
  apply IH. now apply upsert_NoDup.
Qed.

Lemma aggregate_of_row rows r :
  NoDup (map s_hashtag rows) -> In r rows ->
  Spec.aggregate rows (s_hashtag r) = Some r.
Proof.
  unfold Spec.aggregate.
  induction rows as [|r0 rows IH]; intros Hnd Hin; [destruct Hin|].
  simpl in *. inversion Hnd as [|k ks Hnotin Hnd']; subst.
  destruct Hin as [->|Hin].
  - now rewrite str_eqb_refl.
  - destruct (str_eqb (s_hashtag r0) (s_hashtag r)) eqn:E.
    + apply str_eqb_eq in E. exfalso. apply Hnotin. rewrite E.
      now apply in_map.
    + now apply IH.
Qed.

(** A tag that has a row keeps it through the reports of a post: the
    platform stays, the use count grows by the occurrences of the tag. *)
Lemma fold_upsert_old rate tags t : forall rows r,
  Spec.aggregate rows t = Some r ->
  exists r',
    Spec.aggregate
      (fold_left (fun rows t => upsert_hashtag_stats t pf rate now rows)
                 tags rows) t = Some r'
    /\ s_platform r' = s_platform r
    /\ s_total_uses r'
       = s_total_uses r + Z.of_nat (count_occ str_eq_dec tags t).
Proof.
  induction tags as [|x tags IH]; intros rows r Hr; simpl.
  - exists r. repeat split; [exact Hr | lia].
  - destruct (str_eq_dec x t) as [->|Hne].
    + destruct (IH _ _ (aggregate_upsert_old t rate rows r Hr))
        as (r' & Hr' & Hp & Hn).
      exists r'. repeat split; [exact Hr' | exact Hp |].
      rewrite Hn. simpl. lia.
    + destruct (IH (upsert_hashtag_stats x pf rate now rows) r)
        as (r' & Hr' & Hp & Hn).
      * rewrite aggregate_upsert_other; [exact Hr | congruence].
      * exists r'. repeat split; assumption.
Qed.

(** A tag of the post that had no row gets one, with the platform of the
    reporting post. *)
Lemma fold_upsert_new rate tags t : forall rows,
  Spec.aggregate rows t = None -> In t tags ->
  exists r',
    Spec.aggregate
      (fold_left (fun rows t => upsert_hashtag_stats t pf rate now rows)
                 tags rows) t = Some r'
    /\ s_platform r' = pf.
Proof.
  induction tags as [|x tags IH]; intros rows Hnone Hin; [destruct Hin|].
  simpl. destruct (str_eq_dec x t) as [->|Hne].
  - destruct (fold_upsert_old rate tags t _ _
                (aggregate_upsert_new t rate rows Hnone))
      as (r' & Hr' & Hp & _).
    exists r'. split; [exact Hr' | exact Hp].
  - destruct Hin as [->|Hin]; [contradiction|].
    apply IH; [|exact Hin].
    rewrite aggregate_upsert_other; [exact Hnone | congruence].
Qed.

(** The statements of one report, tag by tag.  A tag that has a row keeps
    that row and its platform; the row gains one use for every time the post
    carries the tag and, if it does, the time of the report; it is untouched
    if the post does not carry the tag.  A zero average stays zero under
    reports of rate zero. *)
Lemma fold_upsert_counted rate tags t : forall rows r,
  Spec.aggregate rows t = Some r ->
  exists r',
    Spec.aggregate
      (fold_left (fun rows t => upsert_hashtag_stats t pf rate now rows)
                 tags rows) t = Some r'
    /\ s_platform r' = s_platform r
    /\ s_total_uses r'
       = s_total_uses r + Z.of_nat (count_occ str_eq_dec tags t)
    /\ s_last_used r'
       = (if Nat.eqb (count_occ str_eq_dec tags t) 0 then s_last_used r
          else now)
    /\ (count_occ str_eq_dec tags t = 0%nat -> r' = r)
    /\ ((rate == 0)%Q -> (s_avg_engagement r == 0)%Q ->
        (s_avg_engagement r' == 0)%Q).
Proof.
  induction tags as [|x tags IH]; intros rows r Hr; simpl.
  - exists r. repeat split; [exact Hr | lia | tauto].
  - destruct (str_eq_dec x t) as [->|Hne].
    + destruct (IH _ _ (aggregate_upsert_old t rate rows r Hr))
        as (r' & Hr' & Hp & Hn & Hl & _ & Ha).
      exists r'. repeat split; [exact Hr' | exact Hp | | | discriminate |].
      * rewrite Hn. simpl. lia.
      * rewrite Hl. simpl. now destruct (Nat.eqb _ 0).
      * intros Hrate Havg. apply Ha; [exact Hrate|]. simpl.
        rewrite Hrate, Havg. unfold Qdiv. ring.
    + destruct (IH (upsert_hashtag_stats x pf rate now rows) r)
        as (r' & Hr' & Hrest).
      * rewrite aggregate_upsert_other; [exact Hr | congruence].
      * exists r'. split; assumption.
Qed.

(** A tag without a row gets one exactly if the post carries it: the row
    has the platform of the post, one use for every time the post carries
    the tag, and the time of the report. *)
Lemma fold_upsert_created rate tags t : forall rows,
  Spec.aggregate rows t = None ->
  match Spec.aggregate
          (fold_left (fun rows t => upsert_hashtag_stats t pf rate now rows)
                     tags rows) t with
  | None => count_occ str_eq_dec tags t = 0%nat
  | Some r' =>
      (0 < count_occ str_eq_dec tags t)%nat
      /\ s_platform r' = pf
      /\ s_total_uses r' = Z.of_nat (count_occ str_eq_dec tags t)
      /\ s_last_used r' = now
      /\ ((rate == 0)%Q -> (s_avg_engagement r' == 0)%Q)
  end.
Proof.
  induction tags as [|x tags IH]; intros rows Hnone; simpl.
  - now rewrite Hnone.
  - destruct (str_eq_dec x t) as [->|Hne].
    + destruct (fold_upsert_counted rate tags t _ _
                  (aggregate_upsert_new t rate rows Hnone))
        as (r' & -> & Hp & Hn & Hl & _ & Ha).
      cbn [s_platform s_total_uses s_last_used s_avg_engagement] in *.
      repeat split; [lia | exact Hp | lia | | ].
      * rewrite Hl. now destruct (Nat.eqb _ 0).
      * intro Hrate. now apply Ha.
    + apply IH. rewrite aggregate_upsert_other; [exact Hnone | congruence].
Qed.

End Aggregates.

(** C1 (evaluation of the code where the claim fails).  Two Twitter posts use
    the tag "launch"; the first is reported with 50 likes on 100 impressions
    (rate 50), the second with 25 likes on 100 impressions (rate 25).  The
    rates recorded for ("launch", Twitter) are 50 and 25, of mean 75/2, but
    the stored [avg_engagement] is 25 with [total_uses] 2: the DO UPDATE
    clause divides by the use count before its increment.  Reporting the
    same two outcomes in the other order stores 50, so the result also
    depends on the order. *)
Theorem C1_stored_average_is_not_the_mean :
  let d := Samples.reported (Samples.reported Samples.two_launches 1 50 100)
                            2 25 100 in
  let d' := Samples.reported (Samples.reported Samples.two_launches 2 25 100)
                             1 50 100 in
  map Qred (Spec.recorded_rates d (lit "launch") Twitter) = [50%Q; 25%Q]
  /\ option_map Qred (AVG (Spec.recorded_rates d (lit "launch") Twitter))
     = Some (75 # 2)
  /\ option_map (fun r => (s_total_uses r, Qred (s_avg_engagement r)))
                (Spec.aggregate (hashtag_stats d) (lit "launch"))
     = Some (2, 25%Q)
  /\ option_map (fun r => (s_total_uses r, Qred (s_avg_engagement r)))
                (Spec.aggregate (hashtag_stats d') (lit "launch"))
     = Some (2, 50%Q).
Proof. vm_compute. repeat split; reflexivity. Qed.

(** ** The primary key of the aggregates *)

Lemma init_database_keys : NoDup (map s_hashtag (hashtag_stats init_database)).
Proof. constructor. Qed.

Lemma save_prediction_keeps_stats d pf content tags score now :
  hashtag_stats (fst (save_prediction d pf content tags score now))
  = hashtag_stats d.
Proof.
  unfold save_prediction. now destruct (insert_hashtags _ _ _ _).
Qed.

(** C9.  [hashtag] alone is the key of [hashtag_stats]: a store whose
    aggregate rows have pairwise different hashtags keeps that property
    through every outcome report; a tag that already has a row keeps that one
    row, whatever the platform of the reported post: its platform column is
    unchanged and its use count grows by the number of times the post carries
    the tag; a tag of the post without a row gets a row with the platform of
    the reported post. *)
Theorem C9_hashtag_alone_is_the_key
    d post_id likes comments shares impressions now d' :
  NoDup (map s_hashtag (hashtag_stats d)) ->
  update_actual_performance d post_id likes comments shares impressions now
  = Return d' ->
  NoDup (map s_hashtag (hashtag_stats d'))
  /\ (forall r, In r (hashtag_stats d) ->
      exists r',
        Spec.aggregate (hashtag_stats d') (s_hashtag r) = Some r'
        /\ s_platform r' = s_platform r
        /\ s_total_uses r'
           = s_total_uses r
             + Z.of_nat (count_occ str_eq_dec (hashtags_of_post d post_id)
                                   (s_hashtag r)))
  /\ (forall t, In t (hashtags_of_post d post_id) ->
      Spec.aggregate (hashtag_stats d) t = None ->
      exists r',
        Spec.aggregate (hashtag_stats d') t = Some r'
        /\ platform_of_post d post_id = Some (s_platform r')).
Proof.
  intros Hnd Hup. unfold update_actual_performance in Hup.
  destruct (negb (forallb int64 _)); [discriminate|].
  destruct (platform_of_post d post_id) as [pf|] eqn:Hpf; [|discriminate].
  injection Hup as <-. cbn [hashtag_stats]. repeat split.
  - now apply fold_upsert_NoDup.
  - intros r Hr. apply fold_upsert_old. now apply aggregate_of_row.
  - intros t Ht Hnone.
    destruct (fold_upsert_new pf now
                (engagement_rate likes comments shares impressions)
                _ t _ Hnone Ht) as (r' & Hr' & Hp).
    exists r'. split; [exact Hr' | now rewrite Hp].
Qed.

Lemma C9_hashtag_alone_is_the_key_witness :
  let d := Samples.reported Samples.shared_tag 1 50 100 in
  let d' := Samples.reported d 2 25 100 in
  NoDup (map s_hashtag (hashtag_stats d'))
  /\ (forall r, In r (hashtag_stats d) ->
      exists r',
        Spec.aggregate (hashtag_stats d') (s_hashtag r) = Some r'
        /\ s_platform r' = s_platform r
        /\ s_total_uses r'
           = s_total_uses r
             + Z.of_nat (count_occ str_eq_dec (hashtags_of_post d 2)
                                   (s_hashtag r)))
  /\ (forall t, In t (hashtags_of_post d 2) ->
      Spec.aggregate (hashtag_stats d) t = None ->
      exists r',
        Spec.aggregate (hashtag_stats d') t = Some r'
        /\ platform_of_post d 2 = Some (s_platform r')).
Proof.
  intros d d'.
  apply (C9_hashtag_alone_is_the_key d 2 25 0 0 100 9 d').
  - vm_compute. constructor; [intros [] | constructor].
  - reflexivity.
Defined.

(** The shared row at work: the tag "launch" is first reported for a Twitter
    post, then for an Instagram post; there is one row, still marked Twitter,
    with two uses. *)
Example shared_row_across_platforms :
  map (fun r => (s_hashtag r, s_platform r, s_total_uses r))
      (hashtag_stats
         (Samples.reported (Samples.reported Samples.shared_tag 1 50 100)
                           2 25 100))
  = [(lit "launch", Twitter, 2)].
Proof. reflexivity. Qed.

(** ** Reports with no impressions *)

Lemma engagement_rate_no_impressions likes comments shares impressions :
  impressions <= 0 -> engagement_rate likes comments shares impressions = 0%Q.
Proof.
  intro H. unfold engagement_rate.
  now destruct (Z.ltb_spec 0 impressions); [lia|].
Qed.

Lemma int64_range (z : Z) : int64 z = true <-> - 2 ^ 63 <= z < 2 ^ 63.
Proof. unfold int64. rewrite andb_true_iff, Z.leb_le, Z.ltb_lt. tauto. Qed.

(** An int that does not fit 64 bits: OverflowError, whatever else holds. *)
Lemma update_out_of_range d post_id likes comments shares impressions now :
  (exists z, In z [post_id; likes; comments; shares; impressions]
             /\ ~ - 2 ^ 63 <= z < 2 ^ 63) ->
  update_actual_performance d post_id likes comments shares impressions now
  = Raise OverflowError.
Proof.
  intros (z & Hin & Hz). unfold update_actual_performance.
  destruct (forallb int64 _) eqn:Hall; [|reflexivity].
  rewrite forallb_forall in Hall. apply Hall, int64_range in Hin.
  contradiction.
Qed.

Lemma update_in_range d post_id likes comments shares impressions now :
  (forall z, In z [post_id; likes; comments; shares; impressions] ->
             - 2 ^ 63 <= z < 2 ^ 63) ->
  update_actual_performance d post_id likes comments shares impressions now
  = let rate := engagement_rate likes comments shares impressions in
    match platform_of_post d post_id with
    | None => Raise TypeError
    | Some pf =>
        Return {| posts := posts d; hashtags := hashtags d;
                  performance :=
                    insert_or_replace_performance
                      {| f_id := seq_performance d + 1; f_post_id := post_id;
                         f_likes := likes; f_comments := comments;
                         f_shares := shares; f_impressions := impressions;
                         f_engagement_rate := rate; f_updated_at := now |}
                      (performance d);
                  hashtag_stats :=
                    fold_left
                      (fun rows t => upsert_hashtag_stats t pf rate now rows)
                      (hashtags_of_post d post_id) (hashtag_stats d);
                  seq_posts := seq_posts d; seq_hashtags := seq_hashtags d;
                  seq_performance := seq_performance d + 1 |}
    end.
Proof.
  intro Hall. unfold update_actual_performance.
  assert (forallb int64 [post_id; likes; comments; shares; impressions]
          = true) as ->; [|reflexivity].
  apply forallb_forall. intros z Hz. now apply int64_range, Hall.
Qed.

Lemma platform_of_post_find d post_id :
  platform_of_post d post_id
  = option_map p_platform (find (fun p => p_id p =? post_id) (posts d)).
Proof.
  unfold platform_of_post.
  induction (posts d) as [|p l IH]; simpl; [reflexivity|].
  destruct (p_id p =? post_id); [reflexivity | exact IH].
Qed.

(** C2 (as amended).  The rejection of [impressions <= 0] is made by the
    tracking tab, which then shows the error and leaves the store untouched.
    [update_actual_performance] itself does not validate the metrics.  With
    [impressions <= 0] it takes the rate to be 0.  If one of the five ints
    does not fit 64 bits it raises OverflowError, and if the post does not
    exist TypeError, nothing being stored.  Otherwise it returns: posts and
    hashtag rows are as before; every outcome row of the post is removed and
    the new row, with rate 0, is appended; an aggregate that exists keeps
    its platform, gains one use for every time the post carries its tag
    and, if it does, the time of the report, and is untouched if it does
    not; a tag without an aggregate gets one exactly if the post carries it,
    with the platform of the post, as many uses as the post carries the tag,
    the time of the report and the average 0. *)
Theorem C2_rejection_is_made_by_the_tracking_tab
    d post_id likes comments shares impressions now :
  impressions <= 0 ->
  let report :=
    update_actual_performance d post_id likes comments shares impressions
                              now in
  let fits :=
    forall z, In z [post_id; likes; comments; shares; impressions] ->
              - 2 ^ 63 <= z < 2 ^ 63 in
  let row := {| f_id := seq_performance d + 1; f_post_id := post_id;
                f_likes := likes; f_comments := comments;
                f_shares := shares; f_impressions := impressions;
                f_engagement_rate := 0%Q; f_updated_at := now |} in
  let carried t :=
    count_occ str_eq_dec
      (map h_hashtag (filter (fun h => h_post_id h =? post_id) (hashtags d)))
      t in
  tracking_tab d post_id likes comments shares impressions now = (Rejected, d)
  /\ (~ fits -> report = Raise OverflowError)
  /\ (fits ->
      match find (fun p => p_id p =? post_id) (posts d) with
      | None => report = Raise TypeError
      | Some p =>
          exists d',
            report = Return d'
            /\ posts d' = posts d
            /\ hashtags d' = hashtags d
            /\ performance d'
               = filter (fun f => negb (f_post_id f =? post_id))
                        (performance d) ++ [row]
            /\ (forall t r,
                  Spec.aggregate (hashtag_stats d) t = Some r ->
                  exists r',
                    Spec.aggregate (hashtag_stats d') t = Some r'
                    /\ s_platform r' = s_platform r
                    /\ s_total_uses r' = s_total_uses r + Z.of_nat (carried t)
                    /\ s_last_used r'
                       = (if Nat.eqb (carried t) 0 then s_last_used r
                          else now)
                    /\ (carried t = 0%nat -> r' = r))
            /\ (forall t,
                  Spec.aggregate (hashtag_stats d) t = None ->
                  match Spec.aggregate (hashtag_stats d') t with
                  | None => carried t = 0%nat
                  | Some r' =>
                      (0 < carried t)%nat
                      /\ s_platform r' = p_platform p
                      /\ s_total_uses r' = Z.of_nat (carried t)
                      /\ s_last_used r' = now
                      /\ (s_avg_engagement r' == 0)%Q
                  end)
      end).
Proof.
  intros Himp report fits row carried. split; [|split].
  - unfold tracking_tab. now destruct (Z.ltb_spec 0 impressions); [lia|].
  - intro Hno. apply update_out_of_range.
    destruct (forallb int64 [post_id; likes; comments; shares; impressions])
      eqn:Hall.
    + exfalso. apply Hno. intros z Hz. apply int64_range.
      rewrite forallb_forall in Hall. now apply Hall.
    + apply not_true_iff_false in Hall.
      destruct (existsb (fun z => negb (int64 z))
                  [post_id; likes; comments; shares; impressions]) eqn:Hex.
      * apply existsb_exists in Hex as (z & Hz & Hneg). exists z.
        split; [exact Hz|]. rewrite <- int64_range.
        now destruct (int64 z).
      * exfalso. apply Hall, forallb_forall. intros z Hz.
        destruct (int64 z) eqn:Ez; [reflexivity|].
        assert (existsb (fun z => negb (int64 z))
                  [post_id; likes; comments; shares; impressions] = true)
          by (apply existsb_exists; exists z; now rewrite Ez).
        congruence.
  - intro Hfits. unfold report. rewrite (update_in_range _ _ _ _ _ _ _ Hfits).
    cbv zeta. rewrite platform_of_post_find.
    rewrite (engagement_rate_no_impressions _ _ _ _ Himp).
    destruct (find _ (posts d)) as [p|]; [|reflexivity]. cbn [option_map].
    eexists. split; [reflexivity|].
    cbn [posts hashtags performance hashtag_stats].
    repeat split.
    + intros t r Hr.
      destruct (fold_upsert_counted (p_platform p) now 0%Q
                  (hashtags_of_post d post_id) t _ r Hr)
        as (r' & Hr' & Hp & Hn & Hl & Hsame & _).
      exists r'. repeat split; assumption.
    + intros t Hnone.
      pose proof (fold_upsert_created (p_platform p) now 0%Q
                    (hashtags_of_post d post_id) t _ Hnone) as H.
      destruct (Spec.aggregate (fold_left _ _ _) t) as [r'|]; [|exact H].
      destruct H as (Hpos & Hp & Hn & Hl & Ha).
      repeat split; try assumption. now apply Ha.
Qed.

Lemma C2_rejection_is_made_by_the_tracking_tab_witness :
  let d := Samples.two_launches in
  let report := update_actual_performance d 1 5 0 0 0 9 in
  let fits := forall z, In z [1; 5; 0; 0; 0] -> - 2 ^ 63 <= z < 2 ^ 63 in
  let row := {| f_id := seq_performance d + 1; f_post_id := 1;
                f_likes := 5; f_comments := 0; f_shares := 0;
                f_impressions := 0; f_engagement_rate := 0%Q;
                f_updated_at := 9 |} in
  let carried t :=
    count_occ str_eq_dec
      (map h_hashtag (filter (fun h => h_post_id h =? 1) (hashtags d))) t in
  tracking_tab d 1 5 0 0 0 9 = (Rejected, d)
  /\ (~ fits -> report = Raise OverflowError)
  /\ (fits ->
      match find (fun p => p_id p =? 1) (posts d) with
      | None => report = Raise TypeError
      | Some p =>
          exists d',
            report = Return d'
            /\ posts d' = posts d
            /\ hashtags d' = hashtags d
            /\ performance d'
               = filter (fun f => negb (f_post_id f =? 1)) (performance d)
                 ++ [row]
            /\ (forall t r,
                  Spec.aggregate (hashtag_stats d) t = Some r ->
                  exists r',
                    Spec.aggregate (hashtag_stats d') t = Some r'
                    /\ s_platform r' = s_platform r
                    /\ s_total_uses r' = s_total_uses r + Z.of_nat (carried t)
                    /\ s_last_used r'
                       = (if Nat.eqb (carried t) 0 then s_last_used r
                          else 9)
                    /\ (carried t = 0%nat -> r' = r))
            /\ (forall t,
                  Spec.aggregate (hashtag_stats d) t = None ->
                  match Spec.aggregate (hashtag_stats d') t with
                  | None => carried t = 0%nat
                  | Some r' =>
                      (0 < carried t)%nat
                      /\ s_platform r' = p_platform p
                      /\ s_total_uses r' = Z.of_nat (carried t)
                      /\ s_last_used r' = 9
                      /\ (s_avg_engagement r' == 0)%Q
                  end)
      end).
Proof.
  apply (C2_rejection_is_made_by_the_tracking_tab
           Samples.two_launches 1 5 0 0 0 9).
  lia.
Defined.

(** C2 fails as stated: on a store with post 1 and no outcome yet,
    [update_actual_performance] with 5 likes and 0 impressions returns
    normally, and afterwards the store holds an outcome row for post 1 with
    rate 0 and an aggregate for its tag "launch". *)
Lemma C2_counterexample :
  performance Samples.two_launches = []
  /\ hashtag_stats Samples.two_launches = []
  /\ exists d',
       update_actual_performance Samples.two_launches 1 5 0 0 0 9 = Return d'
       /\ map (fun f => (f_post_id f, f_impressions f,
                         Qred (f_engagement_rate f))) (performance d')
          = [(1, 0, 0%Q)]
       /\ map (fun r => (s_hashtag r, s_total_uses r)) (hashtag_stats d')
          = [(lit "launch", 1)].
Proof.
  split; [reflexivity|]. split; [reflexivity|].
  eexists. split; [reflexivity|]. split; reflexivity.
Qed.

(** ** Truncation of rationals *)

Lemma inject_Z_div (a b : Z) :
  0 < b -> (inject_Z a / inject_Z b == a # Z.to_pos b)%Q.
Proof.
  intro Hb. destruct b as [|p|p]; try lia.
  unfold Qdiv, Qinv, Qmult, Qeq, inject_Z. simpl. lia.
Qed.

Lemma int_of_comp (x y : Q) : (x == y)%Q -> int_of x = int_of y.
Proof.
  destruct x as [a b], y as [c e]. unfold Qeq, int_of. simpl. intro H.
  rewrite <- (Z.quot_mul_cancel_r a (Zpos b) (Zpos e)) by lia.
  rewrite <- (Z.quot_mul_cancel_r c (Zpos e) (Zpos b)) by lia.
  rewrite H. f_equal. lia.
Qed.

Lemma int_of_inject_Z_div (a b : Z) :
  0 < b -> int_of (inject_Z a / inject_Z b) = Z.quot a b.
Proof.
  intro Hb. rewrite (int_of_comp _ _ (inject_Z_div a b Hb)).
  unfold int_of. simpl. now rewrite Z2Pos.id.
Qed.

Lemma Qsum_inject_Z (l : list Z) : (Qsum (map inject_Z l) == inject_Z (Zsum l))%Q.
Proof.
  induction l as [|x l IH]; simpl; [reflexivity|].
  rewrite IH. now rewrite inject_Z_plus.
Qed.


(** ** The optimal length *)

Lemma tracked_on_outcome_backed d pf :
  tracked_on d pf = Spec.outcome_backed d pf.
Proof.
  unfold tracked_on, tracked, Spec.outcome_backed, perf_of_post.
  induction (posts d) as [|p l IH]; simpl; [reflexivity|].
  rewrite filter_app, IH. f_equal.
  destruct (find _ (performance d)); simpl;
    destruct (platform_eqb (p_platform p) pf); reflexivity.
Qed.

Lemma filter_nothing {A} (l : list A) : filter (fun _ => false) l = [].
Proof. induction l; simpl; auto. Qed.

Section OptimalLength.
Context {U : PyStr}.

Lemma above_average_lengths_spec d pf :
  above_average_lengths d pf
  = map inject_Z (map (fun x => p_content_length (fst x))
                      (Spec.above_overall_mean d pf)).
Proof.
  unfold above_average_lengths, Spec.above_overall_mean.
  rewrite <- tracked_on_outcome_backed.
  destruct (sqlite_avg _).
  - now rewrite map_map.
  - now rewrite filter_nothing.
Qed.

End OptimalLength.

Lemma int_or_none_AVG (l : list Z) :
  int_or_none (AVG (map inject_Z l))
  = if Zsum l =? 0 then None else Some (Z.quot (Zsum l) (len l)).
Proof.
  destruct l as [|x l]; [reflexivity|].
  remember (x :: l) as xs eqn:Hxs.
  assert (Hlen : 0 < len xs) by (subst xs; unfold len; simpl; lia).
  assert (AVG (map inject_Z xs)
          = Some (Qsum (map inject_Z xs) / inject_Z (len (map inject_Z xs)))%Q)
    as -> by (subst xs; reflexivity).
  clear Hxs. unfold int_or_none.
  assert (Hq : (Qsum (map inject_Z xs) / inject_Z (len (map inject_Z xs))
                == Zsum xs # Z.to_pos (len xs))%Q).
  { unfold len. rewrite length_map. fold (len xs).
    rewrite Qsum_inject_Z. now apply inject_Z_div. }
  destruct (Z.eqb_spec (Zsum xs) 0) as [H0|H0].
  - assert (Qeq_bool (Qsum (map inject_Z xs) / inject_Z (len (map inject_Z xs))) 0
            = true) as ->; [|reflexivity].
    apply Qeq_bool_iff. rewrite Hq, H0. reflexivity.
  - assert (Qeq_bool (Qsum (map inject_Z xs) / inject_Z (len (map inject_Z xs))) 0
            = false) as ->.
    { apply not_true_is_false. intro Hb. apply Qeq_bool_iff in Hb.
      rewrite Hq in Hb. unfold Qeq in Hb. simpl in Hb. lia. }
    f_equal. rewrite (int_of_comp _ _ Hq). unfold int_of. simpl.
    now rewrite Z2Pos.id.
Qed.

(** C3 (as amended).  In a store whose texts have fewer than 2^53
    characters in all, the optimal length is the mean content length, cut
    down to an integer, of the platform's outcome-backed posts whose stored
    engagement rate exceeds the average, as SQLite computes it in double
    precision, of the rates of all outcome records (of both platforms); it
    is null when there is no such post (and when their lengths sum to 0). *)
Theorem C3_optimal_length_uses_overall_mean {U : PyStr}
    (d : db) (pf : platform) :
  Forall (fun p => 0 <= p_content_length p) (posts d) ->
  fold_right Z.add 0 (map p_content_length (posts d))
  + Z.of_nat (List.length (posts d)) <= 2 ^ 53 ->
  let lengths :=
    map (fun x => p_content_length (fst x)) (Spec.above_overall_mean d pf) in
  let total := fold_right Z.add 0 lengths in
  let count := Z.of_nat (List.length lengths) in
  optimal_length (get_learning_insights d pf)
  = if total =? 0 then None else Some (Z.quot total count).
Proof.
  intros _ _ lengths total count.
  unfold get_learning_insights. cbn [optimal_length].
  rewrite above_average_lengths_spec. apply int_or_none_AVG.
Qed.

Lemma C3_optimal_length_uses_overall_mean_witness :
  let d := Samples.two_platforms in
  let lengths :=
    map (fun x => p_content_length (fst x))
        (Spec.above_overall_mean (U := ascii_pystr) d Twitter) in
  let total := fold_right Z.add 0 lengths in
  let count := Z.of_nat (List.length lengths) in
  optimal_length (get_learning_insights (U := ascii_pystr) d Twitter)
  = if total =? 0 then None else Some (Z.quot total count).
Proof.
  apply (C3_optimal_length_uses_overall_mean (U := ascii_pystr)
           Samples.two_platforms Twitter).
  - repeat constructor; vm_compute; discriminate.
  - vm_compute. discriminate.
Defined.

(** C3 fails as stated.  In the first store the Twitter posts have lengths 10
    and 20 and rates 25 and 50, and two Instagram posts have rate 0: the mean
    Twitter rate is 75/2, so the claim gives 20, but the code compares with
    the overall average 75/4 and returns 15.  In the second store (Twitter
    only) the posts above the average have lengths 10 and 11: the claim gives
    21/2, the code returns 10. *)
Lemma C3_counterexample :
  (optimal_length
     (get_learning_insights (U := ascii_pystr) Samples.two_platforms Twitter)
   = Some 15
   /\ option_map Qred (Spec.optimal_length_spec Samples.two_platforms Twitter)
      = Some 20%Q)
  /\ (optimal_length
        (get_learning_insights (U := ascii_pystr) Samples.one_platform Twitter)
      = Some 10
      /\ option_map Qred (Spec.optimal_length_spec Samples.one_platform Twitter)
         = Some (21 # 2)).
Proof. vm_compute. repeat split; reflexivity. Qed.

(** The double-precision average at work.  Six posts of length 10 are each
    reported with 1 like on 3 impressions; the six stored rates are the same
    double, 33.333333333333329.  Added one by one they give
    199.99999999999994, and the average 33.333333333333321 is below every
    rate: all six posts count as above average and the optimal length is 10,
    where no rate exceeds the exact mean. *)
Example equal_rates_above_their_average :
  let rates := map f_engagement_rate (performance Samples.six_thirds) in
  map Qred rates = repeat (2345624805922133 # 70368744177664) 6
  /\ option_map Qred (plain_avg rates)
     = Some (4691249611844265 # 140737488355328)
  /\ optimal_length
       (get_learning_insights (U := ascii_pystr) Samples.six_thirds Twitter)
     = Some 10
  /\ match AVG rates with
     | Some m => filter (fun r => Qgtb r m) rates
     | None => []
     end = [].
Proof. vm_compute. repeat split; reflexivity. Qed.

(** ** The scorer *)

Ltac case_tests :=
  repeat match goal with
         | |- context [?a <=? ?b] => destruct (Z.leb_spec a b)
         | |- context [?a <? ?b] => destruct (Z.ltb_spec a b)
         | |- context [?a =? ?b] => destruct (Z.eqb_spec a b)
         end.

Lemma clamp_range (score : Z) : 0 <= clamp score <= 100.
Proof. unfold clamp. lia. Qed.







Section Scorer.
Context {U : PyStr}.


(** The content-quality score of a text with a first character, as one
    sum. *)
Lemma content_quality_sum (c : Z) (rest : str) (pf : platform) (ins : insights) :
  _score_content_quality_learned (c :: rest) pf ins
  = Return (clamp (50
                   + Spec.length_bonus (len (c :: rest)) pf (known_optimal ins)
                   + (if has_char question_mark (c :: rest) then 10 else 0)
                   + (if has_emoji (c :: rest) then 10 else 0)
                   + (if chr_isupper c then 5 else 0))).
Proof.
  unfold _score_content_quality_learned, Spec.length_bonus. cbv zeta.
  generalize (len (c :: rest)). intro n.
  destruct (known_optimal ins) as [o|]; [|destruct pf];
    destruct (has_char question_mark (c :: rest)), (has_emoji (c :: rest)),
             (chr_isupper c);
    case_tests; cbn [andb]; f_equal; f_equal; lia.
Qed.

(** The emoji test, read from the text: some character of the text is one of
    the ten code points of the literal. *)
Lemma has_emoji_code_points (text : str) :
  has_emoji text
  = existsb (fun x => existsb (Z.eqb x)
                        [0x1F60A; 0x1F525; 0x1F4AF; 0x2764; 0xFE0F; 0x1F44D;
                         0x1F389; 0x2728; 0x1F4AA; 0x1F64C]) text.
Proof.
  unfold has_emoji, has_char, emoji_chars.
  generalize [0x1F60A; 0x1F525; 0x1F4AF; 0x2764; 0xFE0F; 0x1F44D;
              0x1F389; 0x2728; 0x1F4AA; 0x1F64C].
  intro l. apply eq_true_iff_eq. rewrite !existsb_exists.
  split; intros (e & He & H); apply existsb_exists in H as (x & Hx & E);
    apply Z.eqb_eq in E; subst x; exists e; (split; [exact Hx|]);
    apply existsb_exists; exists e; (split; [exact He | apply Z.eqb_refl]).
Qed.

(** C6 (as amended).  For a text with a first character [c], the
    content-quality score is 50, plus the length bonus, plus 10 if the text
    contains a question mark (U+003F), plus 10 if some character of the text
    is one of the ten code points of the emoji literal (nine emoji; the
    heart is U+2764 followed by the variation selector U+FE0F, and either of
    the two counts on its own), plus 5 if [c] is uppercase (A-Z on ASCII,
    the runtime's table beyond), the sum cut to [0,100].  The length bonus
    uses the learned optimal length when the insights hold one that is not
    0: 25 for a deviation below 50, 15 below 100, else 5; otherwise it is 20
    inside the platform's range (Twitter 100-280, Instagram 138-2200).  The
    empty text has no score: IndexError is raised.  On an Instagram text of
    1800 characters with optimal length 1750 (deviation 50) the bonus is 15;
    deviations 49, 99 and 100 give 25, 15 and 5. *)
Theorem C6_content_quality (c : Z) (rest : str) (pf : platform) (ins : insights) :
  let text := c :: rest in
  let known :=
    match optimal_length ins with
    | Some 0 => None
    | o => o
    end in
  let first_upper :=
    if (0 <=? c) && (c <? 128) then (65 <=? c) && (c <=? 90)
    else unicode_isupper c in
  _score_content_quality_learned text pf ins
  = Return
      (Z.min 100
         (Z.max 0
            (50
             + Spec.length_bonus (Z.of_nat (List.length text)) pf known
             + (if existsb (Z.eqb 63) text then 10 else 0)
             + (if existsb
                     (fun x => existsb (Z.eqb x)
                                 [0x1F60A; 0x1F525; 0x1F4AF; 0x2764; 0xFE0F;
                                  0x1F44D; 0x1F389; 0x2728; 0x1F4AA; 0x1F64C])
                     text
                then 10 else 0)
             + (if first_upper then 5 else 0))))
  /\ _score_content_quality_learned [] pf ins = Raise IndexError
  /\ _score_content_quality_learned (Samples.letters 1800) Instagram
       (Samples.with_optimal 1750) = Return 65
  /\ _score_content_quality_learned (Samples.letters 1700) Instagram
       (Samples.with_optimal 1750) = Return 65
  /\ _score_content_quality_learned (Samples.letters 1799) Instagram
       (Samples.with_optimal 1750) = Return 75
  /\ _score_content_quality_learned (Samples.letters 1849) Instagram
       (Samples.with_optimal 1750) = Return 65
  /\ _score_content_quality_learned (Samples.letters 1850) Instagram
       (Samples.with_optimal 1750) = Return 55
  /\ _score_content_quality_learned (Samples.letters 150) Instagram
       (Samples.with_optimal 0) = Return 70
  /\ _score_content_quality_learned [120; 0xFE0F] Twitter Samples.no_insights
     = Return 60.
Proof.
  intros text known first_upper. split.
  - unfold text. rewrite content_quality_sum, has_emoji_code_points.
    unfold clamp, has_char, question_mark, chr_isupper, is_ascii, ascii_upper,
      len.
    assert (known_optimal ins = known) as ->; [|reflexivity].
    unfold known_optimal, known.
    now destruct (optimal_length ins) as [[|o|o]|].
  - split; [reflexivity|]. repeat split; vm_compute; reflexivity.
Qed.

(** C6 fails as stated.  The empty text has no content-quality score: the
    scorer raises IndexError.  And the emoji bonus is given for single code
    points: the text U+2600 U+FE0F (a sun with the variation selector)
    contains none of the nine emoji, so the claim gives 50, but it contains
    the second code point of the heart and the code returns 60. *)
Lemma C6_counterexample :
  _score_content_quality_learned (U := ascii_pystr) [] Twitter
                                 Samples.no_insights
  = Raise IndexError
  /\ _score_content_quality_learned (U := ascii_pystr) [0x2600; 0xFE0F]
                                    Twitter Samples.no_insights
     = Return 60
  /\ Spec.content_quality_claimed [0x2600; 0xFE0F] Twitter None false = 50.
Proof. vm_compute. repeat split; reflexivity. Qed.


(** C10.  The scorer is defined exactly on the texts with a first character:
    for the empty text the content-quality score, the whole score and the
    analysis request raise IndexError (nothing is saved); for every other
    text the content-quality score is returned and lies in [0,100]. *)
Theorem C10_empty_text_raises (pf : platform) (ins : insights)
    (hashtags : list hashtag) (weekday now : Z) (d : db) (reply : oracle_reply) :
  _score_content_quality_learned [] pf ins = Raise IndexError
  /\ _score_with_learning [] hashtags pf ins weekday = Raise IndexError
  /\ analyze_content d [] pf reply weekday now = Raise IndexError
  /\ (forall c rest, exists score,
        _score_content_quality_learned (c :: rest) pf ins = Return score
        /\ 0 <= score <= 100).
Proof.
  repeat split; try reflexivity.
  intros c rest. rewrite content_quality_sum.
  eexists. split; [reflexivity | apply clamp_range].
Qed.


End Scorer.


(** ** Sets of keywords *)

Lemma mem_str_In (x : str) (l : list str) : mem_str x l = true <-> In x l.
Proof.
  unfold mem_str. rewrite existsb_exists. split.
  - intros (y & Hy & E). apply str_eqb_eq in E. now subst.
  - intro H. exists x. split; [exact H | apply str_eqb_refl].
Qed.

Lemma to_set_In (x : str) (l : list str) : In x (to_set l) <-> In x l.
Proof.
  induction l as [|y l IH]; simpl; [tauto|].
  destruct (mem_str y l) eqn:E.
  - rewrite IH. apply mem_str_In in E. split; [tauto|].
    intros [->|H]; assumption.
  - simpl. rewrite IH. tauto.
Qed.

Lemma to_set_NoDup (l : list str) : NoDup (to_set l).
Proof.
  induction l as [|y l IH]; simpl; [constructor|].
  destruct (mem_str y l) eqn:E; [exact IH|].
  constructor; [|exact IH]. rewrite to_set_In, <- mem_str_In. congruence.
Qed.

Lemma set_inter_In (x : str) (a b : list str) :
  In x (set_inter a b) <-> In x a /\ In x b.
Proof. unfold set_inter. now rewrite filter_In, mem_str_In. Qed.

Lemma set_union_In (x : str) (a b : list str) :
  In x (set_union a b) <-> In x a \/ In x b.
Proof.
  unfold set_union. rewrite in_app_iff, filter_In, negb_true_iff.
  destruct (mem_str x a) eqn:E.
  - apply mem_str_In in E. intuition congruence.
  - tauto.
Qed.

Lemma set_union_NoDup (a b : list str) :
  NoDup a -> NoDup b -> NoDup (set_union a b).
Proof.
  intros Ha Hb. unfold set_union. apply NoDup_app.
  - exact Ha.
  - now apply NoDup_filter.
  - intros x Hx Hf. apply filter_In in Hf as [_ Hf].
    apply negb_true_iff in Hf. apply mem_str_In in Hx. congruence.
Qed.

(** ** Sorting by a rational key, descending *)

Lemma Qgtb_lt (a b : Q) : Qgtb a b = true <-> (b < a)%Q.
Proof.
  unfold Qgtb. rewrite negb_true_iff. split.
  - intro H. apply Qnot_le_lt. intro Hle. apply Qle_bool_iff in Hle. congruence.
  - intro H. apply not_true_is_false. intro Hle. apply Qle_bool_iff in Hle.
    now apply (Qlt_not_le _ _ H).
Qed.

Lemma Qgtb_le (a b : Q) : Qgtb a b = false <-> (a <= b)%Q.
Proof.
  unfold Qgtb. rewrite negb_false_iff. apply Qle_bool_iff.
Qed.

Lemma firstn_In {A} (n : nat) (y : A) (l : list A) :
  In y (firstn n l) -> In y l.
Proof.
  revert l; induction n as [|n IH]; intros [|x l]; simpl; try tauto.
  intros [->|H]; [now left | right; now apply IH].
Qed.

Section SortDesc.

Context {A : Type} (key : A -> Q).

Lemma insert_desc_In (x y : A) (l : list A) :
  In y (insert_desc key x l) <-> y = x \/ In y l.
Proof.
  induction l as [|z l IH]; simpl.
  - intuition.
  - destruct (Qgtb (key z) (key x)); simpl; [rewrite IH|]; intuition.
Qed.

Lemma sort_desc_In (y : A) (l : list A) : In y (sort_desc key l) <-> In y l.
Proof.
  induction l as [|x l IH]; simpl; [tauto|].
  rewrite insert_desc_In, IH. intuition.
Qed.

Lemma insert_desc_sorted (x : A) (l : list A) :
  StronglySorted (desc key) l -> StronglySorted (desc key) (insert_desc key x l).
Proof.
  induction 1 as [|z l Hs IH Hz]; simpl.
  - repeat constructor.
  - destruct (Qgtb (key z) (key x)) eqn:E.
    + constructor; [exact IH|]. apply Forall_forall. intros y Hy.
      apply insert_desc_In in Hy as [->|Hy].
      * apply Qgtb_lt in E. now apply Qlt_le_weak.
      * rewrite Forall_forall in Hz. now apply Hz.
    + apply Qgtb_le in E. constructor; [now constructor|].
      constructor; [exact E|]. apply Forall_forall. intros y Hy.
      rewrite Forall_forall in Hz. unfold desc.
      apply Qle_trans with (key z); [now apply Hz | exact E].
Qed.

Lemma sort_desc_sorted (l : list A) : StronglySorted (desc key) (sort_desc key l).
Proof.
  induction l as [|x l IH]; simpl; [constructor|].
  now apply insert_desc_sorted.
Qed.

Lemma sort_desc_length (l : list A) :
  List.length (sort_desc key l) = List.length l.
Proof.
  assert (Hins : forall x l', List.length (insert_desc key x l')
                              = S (List.length l')).
  { intros x l'. induction l' as [|z l' IH]; simpl; [reflexivity|].
    destruct (Qgtb (key z) (key x)); simpl; [now rewrite IH | reflexivity]. }
  induction l as [|x l IH]; simpl; [reflexivity|].
  now rewrite Hins, IH.
Qed.

Lemma firstn_sorted (n : nat) (l : list A) :
  StronglySorted (desc key) l -> StronglySorted (desc key) (firstn n l).
Proof.
  revert l; induction n as [|n IH]; intros l Hs; simpl; [constructor|].
  destruct Hs as [|x l Hs Hx]; [constructor|].
  constructor; [now apply IH|].
  apply Forall_forall. intros y Hy. apply firstn_In in Hy.
  rewrite Forall_forall in Hx. now apply Hx.
Qed.

End SortDesc.

(** ** Similar successful posts *)

Section SimilarPosts.
Context {U : PyStr}.

Lemma keep_similar_In (keywords : list str) (rows : list candidate)
    (r : similar_post) :
  In r (keep_similar keywords rows) ->
  exists id content tags,
    In (id, content, sp_engagement_rate r, tags) rows
    /\ sp_post_id r = id
    /\ sp_similarity r = similarity keywords (keyword_set content)
    /\ (2 # 10 < sp_similarity r)%Q.
Proof.
  unfold keep_similar. rewrite in_flat_map.
  intros ([[[id content] rate] tags] & Hrow & Hr).
  destruct (Qgtb (similarity keywords (keyword_set content)) (2 # 10)) eqn:E;
    [|destruct Hr].
  destruct Hr as [<-|[]]. cbn [sp_engagement_rate sp_post_id sp_similarity].
  exists id, content, tags. repeat split; [exact Hrow|].
  now apply Qgtb_lt.
Qed.

Lemma candidates_In (d : db) (pf : platform) (limit : nat)
    (id : Z) (content : str) (rate : Q) (tags : str) :
  In (id, content, rate, tags) (candidates d pf limit) ->
  (3 < rate)%Q
  /\ exists p f,
       In (p, f) (tracked_on d pf)
       /\ p_platform p = pf
       /\ p_id p = id /\ p_content p = content
       /\ f_engagement_rate f = rate
       /\ hashtags_of_post d id <> [].
Proof.
  unfold candidates. intro H. apply firstn_In in H.
  rewrite (sort_desc_In c_rate) in H.
  apply in_flat_map in H as ([p f] & Hpf & H).
  destruct (hashtags_of_post d (p_id p)) eqn:Hh; [destruct H|].
  destruct (Qgtb (f_engagement_rate f) 3) eqn:E; [|destruct H].
  destruct H as [H|[]]. injection H as <- <- <- _.
  split; [now apply Qgtb_lt|].
  exists p, f. repeat split; try assumption.
  - unfold tracked_on in Hpf. apply filter_In in Hpf as [_ Hp]. simpl in Hp.
    now destruct (p_platform p), pf.
  - congruence.
Qed.

(** C7.  Every post returned by [get_similar_successful_posts] is an
    outcome-backed post of the platform whose engagement rate is above 3.0
    and whose Jaccard similarity with the query (over the lowercase
    alphabetic tokens of length >= 4) is above 0.2; the candidate pool has at
    most [2 * limit] rows and is filtered by similarity afterwards; the kept
    posts are sorted by engagement rate, descending, and cut to the first
    [limit]. *)
Theorem C7_similar_successful_posts
    (d : db) (content : str) (pf : platform) (limit : nat) :
  let result := get_similar_successful_posts d content pf limit in
  (forall r, In r result ->
     (2 # 10 < sp_similarity r)%Q
     /\ (3 < sp_engagement_rate r)%Q
     /\ exists p f,
          In (p, f) (tracked_on d pf)
          /\ p_platform p = pf
          /\ p_id p = sp_post_id r
          /\ f_engagement_rate f = sp_engagement_rate r
          /\ sp_similarity r
             = similarity (to_set (findall_letters 4 (str_lower content)))
                          (to_set (findall_letters 4 (str_lower (p_content p)))))
  /\ (forall a b,
        similarity a b
        = match set_union a b with
          | [] => 0%Q
          | u => (inject_Z (len (set_inter a b)) / inject_Z (len u))%Q
          end)
  /\ (List.length (candidates d pf limit) <= 2 * limit)%nat
  /\ result
     = firstn limit
         (sort_desc sp_engagement_rate
            (keep_similar (keyword_set content) (candidates d pf limit)))
  /\ (List.length result <= limit)%nat
  /\ StronglySorted (desc sp_engagement_rate) result.
Proof.
  intro result. repeat split.
  - unfold result, get_similar_successful_posts in H.
    apply firstn_In in H. rewrite sort_desc_In in H.
    apply keep_similar_In in H
      as (id & c & tags & Hrow & _ & _ & Hsim).
    exact Hsim.
  - unfold result, get_similar_successful_posts in H.
    apply firstn_In in H. rewrite sort_desc_In in H.
    apply keep_similar_In in H
      as (id & c & tags & Hrow & _ & _ & _).
    now apply candidates_In in Hrow as [Hrate _].
  - unfold result, get_similar_successful_posts in H.
    apply firstn_In in H. rewrite sort_desc_In in H.
    apply keep_similar_In in H
      as (id & c & tags & Hrow & Hid & Hsim & _).
    apply candidates_In in Hrow as (_ & p & f & Hpf & Hp & Hpid & Hc & Hf & _).
    exists p, f. repeat split; try assumption; try congruence.
    rewrite Hsim, <- Hc. reflexivity.
  - unfold candidates. rewrite Nat.mul_comm. apply firstn_le_length.
  - apply firstn_le_length.
  - apply firstn_sorted, sort_desc_sorted.
Qed.

(** The token lists compared are sets, and so are their intersection and
    union: the quotient of the two lengths is the Jaccard index. *)
Lemma similarity_is_over_sets (s s' : str) :
  let a := keyword_set s in
  let b := keyword_set s' in
  NoDup a /\ NoDup b /\ NoDup (set_inter a b) /\ NoDup (set_union a b)
  /\ (forall w, In w a <-> In w (findall_letters 4 (str_lower s)))
  /\ (forall w, In w (set_inter a b) <-> In w a /\ In w b)
  /\ (forall w, In w (set_union a b) <-> In w a \/ In w b).
Proof.
  intros a b. unfold a, b, keyword_set.
  split; [apply to_set_NoDup|]. split; [apply to_set_NoDup|].
  split; [unfold set_inter; apply NoDup_filter, to_set_NoDup|].
  split; [apply set_union_NoDup; apply to_set_NoDup|].
  split; [intro w; apply to_set_In|].
  split; [intro w; apply set_inter_In | intro w; apply set_union_In].
Qed.

End SimilarPosts.

(** The search at work.  For the query below, post 3 (rate 10) shares no
    token, post 4 has rate 2, post 5 has no hashtag row; posts 2 and 1 are
    returned, the higher rate first.  With [limit = 1] the pool is posts 3
    and 2, and post 2 is returned. *)
Example similar_posts_found :
  let query := lit "Product launch with great content" in
  map (fun r => (sp_post_id r, Qred (sp_engagement_rate r),
                 Qred (sp_similarity r)))
      (get_similar_successful_posts (U := ascii_pystr) Samples.similar_store
                                    query Twitter 5)
  = [(2, 5%Q, 2 # 3); (1, 4%Q, 5 # 6)]
  /\ map sp_post_id
       (get_similar_successful_posts (U := ascii_pystr) Samples.similar_store
                                     query Twitter 1)
     = [2].
Proof. vm_compute. split; reflexivity. Qed.

(** ** The proposer *)

Lemma filter_orb_length {A} (f g : A -> bool) (l : list A) :
  (List.length (filter (fun x => f x || g x) l)
   <= List.length (filter f l) + List.length (filter g l))%nat.
Proof.
  induction l as [|x l IH]; simpl; [lia|].
  destruct (f x), (g x); simpl; lia.
Qed.

Lemma filter_eq_absent (x : str) (l : list str) :
  ~ In x l -> filter (str_eqb x) l = [].
Proof.
  induction l as [|y l IH]; simpl; intro H; [reflexivity|].
  assert (str_eqb x y = false) as ->
    by (apply str_eqb_neq; intros ->; apply H; now left).
  apply IH. tauto.
Qed.

Lemma filter_eq_NoDup (x : str) (l : list str) :
  NoDup l -> (List.length (filter (str_eqb x) l) <= 1)%nat.
Proof.
  induction 1 as [|y l Hy Hnd IH]; simpl; [lia|].
  destruct (str_eqb x y) eqn:E; [|exact IH].
  apply str_eqb_eq in E. subst y. rewrite filter_eq_absent by exact Hy.
  simpl. lia.
Qed.

Lemma generic_tags_NoDup : NoDup generic_tags.
Proof.
  change generic_tags with (to_set generic_tags). apply to_set_NoDup.
Qed.

Section Proposer.
Context {U : PyStr}.

Lemma add_keywords_le (target : nat) (ws : list str) :
  forall i hs, (List.length hs <= target)%nat ->
  (List.length (add_keywords target i ws hs) <= target)%nat.
Proof.
  induction ws as [|w ws IH]; intros i hs Hle; simpl; [exact Hle|].
  destruct (Nat.leb_spec target (List.length hs)); [exact Hle|].
  apply IH. rewrite last_length. lia.
Qed.

Lemma add_proven_le (target : nat) (tops : list top_hashtag) :
  forall hs, (List.length hs <= target)%nat ->
  (List.length (add_proven target tops hs) <= target)%nat.
Proof.
  induction tops as [|t tops IH]; intros hs Hle; simpl; [exact Hle|].
  destruct (Nat.leb_spec target (List.length hs)); [exact Hle|].
  destruct (tag_taken hs (str_lower (t_hashtag t))); apply IH;
    [exact Hle | rewrite last_length; lia].
Qed.

(** Each hashtag already chosen blocks at most one of a list of pairwise
    different candidates. *)
Lemma taken_le (hs : list hashtag) (gs : list str) :
  NoDup gs -> (List.length (filter (tag_taken hs) gs) <= List.length hs)%nat.
Proof.
  intro Hnd. induction hs as [|h hs IH].
  - assert (filter (tag_taken []) gs = []) as ->; [|simpl; lia].
    clear Hnd. induction gs; [reflexivity | assumption].
  - unfold tag_taken in *. cbn [existsb].
    pose proof (filter_orb_length (str_eqb (str_lower (tag h)))
                  (fun g => existsb (fun h0 => str_eqb (str_lower (tag h0)) g) hs)
                  gs) as Hor.
    pose proof (filter_eq_NoDup (str_lower (tag h)) gs Hnd) as H1.
    simpl List.length. lia.
Qed.

Lemma tag_taken_app (hs : list hashtag) (h : hashtag) (g : str) :
  tag_taken (hs ++ [h]) g = tag_taken hs g || str_eqb (str_lower (tag h)) g.
Proof.
  unfold tag_taken. rewrite existsb_app. simpl. now rewrite orb_false_r.
Qed.

Lemma add_generic_full (target : nat) (gs : list str) :
  NoDup gs ->
  (forall g, In g gs -> str_lower g = g) ->
  forall hs,
    (List.length hs <= target)%nat ->
    (target + List.length (filter (tag_taken hs) gs)
     <= List.length hs + List.length gs)%nat ->
    List.length (add_generic target gs hs) = target.
Proof.
  induction 1 as [|g gs Hg Hnd IH]; intros Hfix hs Hle Hroom; simpl in *.
  - lia.
  - destruct (Nat.leb_spec target (List.length hs)); [lia|].
    destruct (tag_taken hs g) eqn:Et; simpl in Hroom.
    + apply IH; [auto | exact Hle | lia].
    + apply IH; [auto | rewrite last_length; lia |].
      rewrite last_length.
      rewrite (filter_ext_in _ (tag_taken hs)); [lia|].
      intros g' Hg'. rewrite tag_taken_app. cbn [tag].
      rewrite (Hfix g (or_introl eq_refl)).
      assert (str_eqb g g' = false) as ->; [|apply orb_false_r].
      apply str_eqb_neq. intros ->. contradiction.
Qed.

Lemma str_lower_generic (g : str) : In g generic_tags -> str_lower g = g.
Proof.
  intro Hin. apply mem_str_In in Hin.
  unfold mem_str, generic_tags in Hin. cbn [map existsb] in Hin.
  repeat (apply orb_true_iff in Hin as [Hin|Hin];
          [apply str_eqb_eq in Hin; subst g; reflexivity|]).
  discriminate.
Qed.

Lemma num_hashtags_le_generic (pf : platform) :
  (num_hashtags pf <= List.length generic_tags)%nat.
Proof. destruct pf; simpl; lia. Qed.

Lemma fallback_length (text : str) (pf : platform)
    (top_hashtags : list top_hashtag) :
  List.length (_fallback_hashtags text pf top_hashtags) = num_hashtags pf.
Proof.
  unfold _fallback_hashtags. cbv zeta.
  set (target := num_hashtags pf).
  set (h1 := add_keywords target 0 (firstn target (keywords_of text)) []).
  assert (H1 : (List.length h1 <= target)%nat)
    by (apply add_keywords_le; simpl; lia).
  set (h2 := if (List.length h1 <? target)%nat
                && negb (Nat.eqb (List.length top_hashtags) 0)
             then add_proven target top_hashtags h1 else h1).
  assert (H2 : (List.length h2 <= target)%nat).
  { unfold h2. destruct (_ && _); [now apply add_proven_le | exact H1]. }
  assert (H3 : List.length
                 (if (List.length h2 <? target)%nat
                  then add_generic target generic_tags h2 else h2) = target).
  { destruct (Nat.ltb_spec (List.length h2) target); [|lia].
    apply add_generic_full;
      [apply generic_tags_NoDup | exact str_lower_generic | exact H2 |].
    pose proof (taken_le h2 generic_tags generic_tags_NoDup) as Htaken.
    pose proof (num_hashtags_le_generic pf) as Hpool. fold target in Hpool.
    lia. }
  rewrite firstn_all2; [exact H3 | lia].
Qed.

Lemma generate_length (text : str) (pf : platform)
    (top_hashtags : list top_hashtag) (reply : oracle_reply) :
  List.length (_generate_hashtags_with_learning text pf top_hashtags reply)
  = num_hashtags pf.
Proof.
  unfold _generate_hashtags_with_learning.
  destruct reply as [| |l]; try apply fallback_length.
  destruct (Nat.ltb_spec (List.length l) (num_hashtags pf));
    [apply fallback_length|].
  rewrite length_firstn, length_map. lia.
Qed.

(** C8.  The generic pool has 15 pairwise different tags, more than N, so
    the sources of the fallback can always supply N tags; and [propose]
    returns exactly 3 hashtags for Twitter and exactly 12 for Instagram,
    whether the oracle does not answer, its answer cannot be decoded, or a
    list is decoded from it (of which the first N are kept if it has at
    least N items, the fallback chain being used if it has fewer), and so
    does the fallback itself. *)
Theorem C8_propose_returns_exactly_N (text : str)
    (top_hashtags : list top_hashtag) (reply : oracle_reply) :
  List.length generic_tags = 15%nat
  /\ NoDup generic_tags
  /\ List.length (_fallback_hashtags text Twitter top_hashtags) = 3%nat
  /\ List.length (_fallback_hashtags text Instagram top_hashtags) = 12%nat
  /\ List.length
       (_generate_hashtags_with_learning text Twitter top_hashtags reply)
     = 3%nat
  /\ List.length
       (_generate_hashtags_with_learning text Instagram top_hashtags reply)
     = 12%nat
  /\ (forall pf l,
        _generate_hashtags_with_learning text pf top_hashtags (Decoded l)
        = if (List.length l <? (match pf with Twitter => 3 | Instagram => 12
                                 end))%nat
          then _fallback_hashtags text pf top_hashtags
          else firstn (match pf with Twitter => 3 | Instagram => 12 end)
                      (map (boost top_hashtags) l))
  /\ (forall pf,
        _generate_hashtags_with_learning text pf top_hashtags Unavailable
        = _fallback_hashtags text pf top_hashtags
        /\ _generate_hashtags_with_learning text pf top_hashtags Malformed
           = _fallback_hashtags text pf top_hashtags).
Proof.
  split; [reflexivity|].
  split; [apply generic_tags_NoDup|].
  split; [apply (fallback_length text Twitter)|].
  split; [apply (fallback_length text Instagram)|].
  split; [apply (generate_length text Twitter)|].
  split; [apply (generate_length text Instagram)|].
  split.
  - intros [] l; reflexivity.
  - intros pf. split; reflexivity.
Qed.

End Proposer.

(** The fallback at work: the text gives the keywords "share", "the",
    "content", "our" and "launch"; the pool fills the other seven places,
    leaving out its own "content" (and never reaching "share"). *)
Example fallback_for_instagram :
  map tag (_fallback_hashtags (U := ascii_pystr)
             (lit "Share the content of our launch") Instagram [])
  = map lit ["share"; "the"; "content"; "our"; "launch"; "socialmedia";
             "marketing"; "community"; "growth"; "tips"; "inspiration";
             "motivation"]%string.
Proof. reflexivity. Qed.
